(** * Verification of [submit-transactions.js] (django-double-entry)

    The script collects transaction rows out of the page, posts them to the
    pipeline endpoint and paints the server's verdicts back onto the rows.
    This development embeds its functions

      - [collectTransactions], [markForCommit], [processResponse] and
        [submitTransactions] of [double_entry/static/js/submit-transactions.js]
        (module [StaticJs]), and
      - the variants of [collectTransactions], [processResponse] and the
        [.done] handler found in the second copy of the script (module
        [Part000]),
      - the key expression of the first draft and the collector of the
        second draft kept under [double_entry/static/double_entry/js]
        (modules [FirstDraft] and [SecondDraft]),

    over an explicit model of the part of the document the script touches,
    and proves the properties of the specification about them.

    Modelling conventions.
      - The document is a list of containers in document order; a container
        owns its rows (the descendants carrying the class
        [resolved-transaction]) and a row owns its first descendant of class
        [transaction-feedback], if it has one.  Element ids are assumed to be
        plain CSS identifiers, since the script interpolates them in selectors.
      - A [dataset] is a finite map from the camel-cased key to the attribute
        value; a plain JS object is a finite map from property name to value.
      - A JS exception is an explicit [Throw]; functions that update the
        document return the completion together with the document they leave
        behind. *)

From Stdlib Require Import Ascii ZArith.
From stdpp Require Import base option list strings gmap.

Local Open Scope string_scope.
Local Open Scope list_scope.

(** ** JavaScript values, objects and completions *)

Inductive jsvalue :=
  | JString (s : string)
  | JBool (b : bool).

#[global] Instance jsvalue_eq_dec : EqDecision jsvalue.
Proof. solve_decision. Defined.

Inductive exn := TypeError.

Inductive completion (A : Type) :=
  | Normal (a : A)
  | Throw (e : exn).
Arguments Normal {A} a.
Arguments Throw {A} e.

#[global] Instance completion_ret : MRet completion := λ A a, Normal a.
#[global] Instance completion_bind : MBind completion := λ A B f m,
  match m with
  | Normal a => f a
  | Throw e => Throw e
  end.

(** [o[k] = v] for a primitive [v]: an own property is written, except for
    the key [__proto__], whose setter on [Object.prototype] ignores
    primitives. *)
Definition js_set (k : string) (v : jsvalue) (o : gmap string jsvalue)
  : gmap string jsvalue :=
  if decide (k = "__proto__") then o else <[k := v]> o.

(** Truthiness of a string-or-undefined, as read from a [dataset]. *)
Definition truthy (v : option string) : bool :=
  match v with
  | Some s => negb (String.eqb s EmptyString)
  | None => false
  end.

(** [s.startsWith(p)], [s.substring(n)] and [s.replace(/-/g, '_')]. *)
Definition startsWith (s p : string) : bool := String.prefix p s.

Fixpoint substring_from (n : nat) (s : string) : string :=
  match n, s with
  | O, _ => s
  | S n', String _ s' => substring_from n' s'
  | S _, EmptyString => EmptyString
  end.

Definition hyphen_to_underscore (c : Ascii.ascii) : Ascii.ascii :=
  if Ascii.eqb c "-"%char then "_"%char else c.

Fixpoint replace_hyphens (s : string) : string :=
  match s with
  | EmptyString => EmptyString
  | String c s' => String (hyphen_to_underscore c) (replace_hyphens s')
  end.

(** ** The document *)

Record Attr := mkAttr {
  attr_name : string;
  attr_value : string;
  attr_specified : bool
}.

(** The feedback sub-element of a row: its [data-*] session state and its
    markup. *)
Record Feedback := mkFeedback {
  dataset : gmap string string;
  innerHTML : string
}.

Record Row := mkRow {
  row_id : string;
  row_attributes : list Attr;
  row_feedback : option Feedback
}.

Record Container := mkContainer {
  container_id : string;
  container_attributes : list Attr;
  container_rows : list Row
}.

Abbreviation DOM := (list Container).

(** A reference to an element of the document: the container at index [i],
    or the row at index [j] of the container at index [i]. *)
Inductive node :=
  | ContainerAt (i : nat)
  | RowAt (i j : nat).

#[global] Instance node_eq_dec : EqDecision node.
Proof. solve_decision. Defined.

Definition set_rows (rs : list Row) (c : Container) : Container :=
  mkContainer (container_id c) (container_attributes c) rs.

Definition set_feedback (fb : Feedback) (r : Row) : Row :=
  mkRow (row_id r) (row_attributes r) (Some fb).

Definition set_dataset (ds : gmap string string) (fb : Feedback) : Feedback :=
  mkFeedback ds (innerHTML fb).

Definition set_innerHTML (html : string) (fb : Feedback) : Feedback :=
  mkFeedback (dataset fb) html.

(** [$('#id')]: the first element of the document, in document order, that
    carries the id; a container precedes its rows. *)
Definition below (n : node) : node :=
  match n with
  | ContainerAt i => ContainerAt (S i)
  | RowAt i j => RowAt (S i) j
  end.

Fixpoint select_id (eid : string) (d : DOM) : option node :=
  match d with
  | [] => None
  | c :: d' =>
      if decide (container_id c = eid) then Some (ContainerAt 0)
      else match list_find (λ r, row_id r = eid) (container_rows c) with
           | Some (j, _) => Some (RowAt 0 j)
           | None => below <$> select_id eid d'
           end
  end.

(** [$('#id .resolved-transaction')]: the rows below every element carrying
    the id, in document order. *)
Definition select_rows (eid : string) (d : DOM) : list Row :=
  c ← filter (λ c, container_id c = eid) d; container_rows c.

Definition lookup_row (i j : nat) (d : DOM) : option Row :=
  c ← d !! i; container_rows c !! j.

(** [element.attr(name)] *)
Definition get_attribute (name : string) (attrs : list Attr) : option string :=
  attr_value <$> (snd <$> list_find (λ a, attr_name a = name) attrs).

Definition node_attr (name : string) (d : DOM) (n : node) : option string :=
  match n with
  | ContainerAt i => c ← d !! i; get_attribute name (container_attributes c)
  | RowAt i j => r ← lookup_row i j d; get_attribute name (row_attributes r)
  end.

(** [element.find('.transaction-feedback')[0]]: the position of the row that
    owns the first feedback element below the node, with that element. *)
Definition find_feedback (d : DOM) (n : node) : option (nat * nat * Feedback) :=
  match n with
  | RowAt i j =>
      r ← lookup_row i j d; fb ← row_feedback r; Some (i, j, fb)
  | ContainerAt i =>
      c ← d !! i;
      '(j, r) ← list_find (λ r, is_Some (row_feedback r)) (container_rows c);
      fb ← row_feedback r; Some (i, j, fb)
  end.

(** [element.remove()] *)
Definition remove_node (n : node) (d : DOM) : DOM :=
  match n with
  | ContainerAt i => delete i d
  | RowAt i j => alter (λ c, set_rows (delete j (container_rows c)) c) i d
  end.

(** Writing back the feedback element owned by the row at [(i, j)]. *)
Definition write_feedback (i j : nat) (fb : Feedback) (d : DOM) : DOM :=
  alter (λ c, set_rows (alter (set_feedback fb) j (container_rows c)) c) i d.

(** Number of elements (containers and rows) in the document. *)
Fixpoint dom_size (d : DOM) : nat :=
  match d with
  | [] => 0
  | c :: d' => S (length (container_rows c)) + dom_size d'
  end.

(** ** Messages exchanged with the endpoint *)

Record ResponseEntry := mkResponseEntry {
  transaction_id : string;
  errors : list string;
  warnings : list string;
  verdict : Z;
  committed : option bool   (* [None]: the field is absent *)
}.

Record Response := mkResponse {
  pipeline_responses : list ResponseEntry
}.

Record PostData := mkPostData {
  commit : bool;
  transactions : list (gmap string jsvalue)
}.

Record Request := mkRequest {
  url : string;
  method : string;
  dataType : string;
  data : PostData
}.

(** ** Markup helpers *)

Definition dquote : string := String (ascii_of_nat 34) EmptyString.

(** An array interpolated in a template literal is joined with commas. *)
Definition array_toString (l : list string) : string := String.concat "," l.

Definition html_item (err : string) : string := "<li>" +:+ err +:+ "</li>".

Definition html_list (class : string) (items : list string) : string :=
  "<ul class=" +:+ dquote +:+ class +:+ dquote +:+ ">"
    +:+ array_toString (html_item <$> items) +:+ "</ul>".

(** [Array.prototype.forEach] with a callback that may throw. *)
Fixpoint forEach {S A : Type} (f : A → S → completion unit * S)
    (l : list A) (s : S) : completion unit * S :=
  match l with
  | [] => (Normal (), s)
  | x :: l' =>
      match f x s with
      | (Normal _, s') => forEach f l' s'
      | (Throw e, s') => (Throw e, s')
      end
  end.

(** * [double_entry/static/js/submit-transactions.js] *)

Module StaticJs.

(** *** The collector *)

Definition parameterName (name : string) : string :=
  replace_hyphens (substring_from 5 name).

(** The body of [$.each(this.attributes, function (i, attr) {...})]. *)
Definition copy_attribute (row_data : gmap string jsvalue) (attr : Attr)
  : gmap string jsvalue :=
  if startsWith (attr_name attr) "data-" && attr_specified attr
  then js_set (parameterName (attr_name attr)) (JString (attr_value attr)) row_data
  else row_data.

(** The record built for a row that is included. *)
Definition row_data (pipelineSectionId : option string) (this : Row)
    (feedback : Feedback) : gmap string jsvalue :=
  let row_data : gmap string jsvalue :=
    {[ "transaction_id" := JString (row_id this) ]} in
  let row_data :=
    match pipelineSectionId with
    | Some p => <["pipeline_section_id" := JString p]> row_data
    | None => row_data
    end in
  let row_data := foldl copy_attribute row_data (row_attributes this) in
  if decide (dataset feedback !! "verdict" ≠ Some "commit")
  then <["do_not_skip" := JBool true]> row_data
  else row_data.

(** The callback handed to [to_commit.map]: [None] stands for the [null]
    it returns for a row that is not marked. *)
Definition row_callback (pipelineSectionId : option string) (this : Row)
  : completion (option (gmap string jsvalue)) :=
  match row_feedback this with
  | None => Throw TypeError
  | Some feedback =>
      if negb (truthy (dataset feedback !! "commit")) then Normal None
      else Normal (Some (row_data pipelineSectionId this feedback))
  end.

(** jQuery's [.map(callback).get()]: the callback runs on the elements in
    order, a [null] result is dropped, an exception aborts the loop. *)
Fixpoint jquery_map {A B : Type} (callback : A → completion (option B))
    (l : list A) : completion (list B) :=
  match l with
  | [] => Normal []
  | x :: l' =>
      r ← callback x;
      rs ← jquery_map callback l';
      Normal (match r with Some y => y :: rs | None => rs end)
  end.

Definition collectTransactions (d : DOM) (elementId : string)
  : completion (list (gmap string jsvalue)) :=
  let collection := select_id elementId d in
  let pipelineSectionId :=
    collection ≫= node_attr "data-pipeline-section-id" d in
  let to_commit := select_rows elementId d in
  jquery_map (row_callback pipelineSectionId) to_commit.

(** *** Session state and the renderer *)

(** [markForCommit(feedbackElement, commit)]: the element it leaves behind
    and the value it returns. *)
Definition markForCommit (feedbackElement : Feedback) (commit : bool)
  : Feedback * bool :=
  let verdict := dataset feedbackElement !! "verdict" in
  if decide (verdict = None ∨ verdict = Some "discard") then
    (feedbackElement, false)
  else if commit then
    (set_dataset (<["commit" := "true"]> (dataset feedbackElement))
       feedbackElement, true)
  else
    (set_dataset (delete "commit" (dataset feedbackElement)) feedbackElement,
     false).

(** The [switch (verdict)] of [processResponse]. *)
Definition apply_verdict (verdict : Z) (ds : gmap string string)
  : gmap string string :=
  match verdict with
  | 0%Z => <["commit" := "true"]> (<["verdict" := "commit"]> ds)
  | 1%Z => delete "commit" (<["verdict" := "suggest-skip"]> ds)
  | 3%Z => delete "commit" (<["verdict" := "discard"]> ds)
  | _ => ds
  end.

Definition feedback_markup (errors warnings : list string) : string :=
  let feedback := EmptyString in
  let feedback :=
    match errors with
    | [] => feedback
    | _ => html_list "transaction-errors" errors +:+ "<br/>"
    end in
  match warnings with
  | [] => feedback
  | _ => feedback +:+ html_list "transaction-warnings" warnings
  end.

(** The test that guards [element.remove()]. *)
Definition removes (resp : ResponseEntry) (commitIntention : bool) : bool :=
  commitIntention && (default false (committed resp) || (verdict resp >? 0)%Z).

Definition processResponse (resp : ResponseEntry) (commitIntention : bool)
    (d : DOM) : completion unit * DOM :=
  let element := select_id (transaction_id resp) d in
  let elementFeedback := element ≫= find_feedback d in
  if removes resp commitIntention then
    (Normal (), from_option (λ n, remove_node n d) d element)
  else
    match elementFeedback with
    | None => (Throw TypeError, d)
    | Some (i, j, fb) =>
        let fb := set_dataset (apply_verdict (verdict resp) (dataset fb)) fb in
        let fb :=
          set_innerHTML (feedback_markup (errors resp) (warnings resp)) fb in
        (Normal (), write_feedback i j fb d)
    end.

(** *** The submitter *)

Section Submitter.
Context {S : Type}.
Variable responseCallback : ResponseEntry → bool → S → completion unit * S.
Variable extraCallback : option (Response → S → completion unit * S).

(** The handler registered with [.done]. *)
Definition done (commit : bool) (response : Response) (s : S)
  : completion unit * S :=
  match forEach (λ resp, responseCallback resp commit)
          (pipeline_responses response) s with
  | (Normal _, s') =>
      match extraCallback with
      | Some extra => extra response s'
      | None => (Normal (), s')
      end
  | (Throw e, s') => (Throw e, s')
  end.

(** [submitTransactions] reads the document, hands one request to
    [$.ajax] and registers [done] on it. *)
Definition submitTransactions (endpointUrl : string)
    (elementIds : list string) (commit : bool) (d : DOM)
  : completion (Request * (Response → S → completion unit * S)) :=
  transactionLists ← mapM (collectTransactions d) elementIds;
  let transactions := concat transactionLists in
  let postData := mkPostData commit transactions in
  Normal (mkRequest endpointUrl "post" "json" postData, done commit).
End Submitter.

End StaticJs.

(** ** The second copy of the script *)

Module Part000.

(** [this.find(selector)] on a DOM element: elements have no [find] method
    (it belongs to jQuery objects), so the call throws. *)
Definition element_find (this : Row) (selector : string)
  : completion (list Feedback) :=
  Throw TypeError.

(** The callback handed to [to_commit.map]. *)
Definition row_callback (pipelineSectionId : option string) (this : Row)
  : completion (option (gmap string jsvalue)) :=
  found ← element_find this ".transaction-feedback";
  match head found with
  | None => Throw TypeError
  | Some feedback =>
      if negb (truthy (dataset feedback !! "commit")) then Normal None
      else Normal (Some (StaticJs.row_data pipelineSectionId this feedback))
  end.

(** The rows are narrowed down with [.filter('[data-commit="true"]')], which
    looks at the attributes of the row itself. *)
Definition collectTransactions (d : DOM) (elementId : string)
  : completion (list (gmap string jsvalue)) :=
  let collection := select_id elementId d in
  let pipelineSectionId :=
    collection ≫= node_attr "data-pipeline-section-id" d in
  let to_commit :=
    filter (λ r, get_attribute "data-commit" (row_attributes r) = Some "true")
      (select_rows elementId d) in
  StaticJs.jquery_map (row_callback pipelineSectionId) to_commit.

Definition feedback_markup (errors warnings : list string) : string :=
  let verdictFeedback :=
    "<span class=" +:+ dquote +:+ "verdict-feedback" +:+ dquote
      +:+ "></span><br/>" in
  let errorFeedback :=
    match errors with
    | [] => EmptyString
    | _ => html_list "transaction-errors" errors
    end in
  let warningFeedback :=
    match warnings with
    | [] => EmptyString
    | _ => "<br/>" +:+ html_list "transaction-warnings" warnings
    end in
  verdictFeedback +:+ errorFeedback +:+ warningFeedback.

Definition removes (resp : ResponseEntry) (commitIntention : bool) : bool :=
  default false (committed resp) || (commitIntention && (verdict resp >? 0)%Z).

Definition processResponse (resp : ResponseEntry) (commitIntention : bool)
    (d : DOM) : completion unit * DOM :=
  let element := select_id (transaction_id resp) d in
  let elementFeedback := element ≫= find_feedback d in
  if removes resp commitIntention then
    (Normal (), from_option (λ n, remove_node n d) d element)
  else
    match elementFeedback with
    | None => (Throw TypeError, d)
    | Some (i, j, fb) =>
        let fb :=
          set_dataset (StaticJs.apply_verdict (verdict resp) (dataset fb)) fb in
        let fb :=
          set_innerHTML (feedback_markup (errors resp) (warnings resp)) fb in
        (Normal (), write_feedback i j fb d)
    end.

Section Submitter.
Context {S : Type}.
Variable responseCallback : ResponseEntry → bool → S → completion unit * S.
Variable extraCallback : option (Response → S → completion unit * S).

(** The handler registered with [.done]: the callback is handed the
    constant [true]. *)
Definition done (response : Response) (s : S) : completion unit * S :=
  match forEach (λ resp, responseCallback resp true)
          (pipeline_responses response) s with
  | (Normal _, s') =>
      match extraCallback with
      | Some extra => extra response s'
      | None => (Normal (), s')
      end
  | (Throw e, s') => (Throw e, s')
  end.
End Submitter.

End Part000.


(** ** The first draft of the collector *)

Module FirstDraft.

(** [s.replace('-', '_')]: a string pattern replaces the first match only. *)
Fixpoint replace_first_hyphen (s : string) : string :=
  match s with
  | EmptyString => EmptyString
  | String c s' =>
      if Ascii.eqb c "-"%char then String "_"%char s'
      else String c (replace_first_hyphen s')
  end.

Definition parameterName (name : string) : string :=
  replace_first_hyphen (substring_from 5 name).

End FirstDraft.

(** ** The second draft of the collector *)

Module SecondDraft.

(** The record built for a row: every row is collected, and the feedback
    element is not consulted. *)
Definition row_data (pipelineSectionId : option string) (this : Row)
  : gmap string jsvalue :=
  let row_data : gmap string jsvalue :=
    {[ "transaction_id" := JString (row_id this) ]} in
  let row_data :=
    match pipelineSectionId with
    | Some p => <["pipeline_section_id" := JString p]> row_data
    | None => row_data
    end in
  foldl StaticJs.copy_attribute row_data (row_attributes this).

Definition row_callback (pipelineSectionId : option string) (this : Row)
  : completion (option (gmap string jsvalue)) :=
  Normal (Some (row_data pipelineSectionId this)).

Definition collectTransactions (d : DOM) (elementId : string)
  : completion (list (gmap string jsvalue)) :=
  let collection := select_id elementId d in
  let pipelineSectionId :=
    collection ≫= node_attr "data-pipeline-section-id" d in
  StaticJs.jquery_map (row_callback pipelineSectionId)
    (select_rows elementId d).

End SecondDraft.

(** * Vocabulary of the properties and sample documents *)

(** The node refers to an element of the document. *)
Definition node_valid (d : DOM) (n : node) : Prop :=
  match n with
  | ContainerAt i => is_Some (d !! i)
  | RowAt i j => is_Some (lookup_row i j d)
  end.

(** The terminal-removal rule in the words of the specification. *)
Definition spec_terminal_removal (resp : ResponseEntry) (commitIntention : bool)
  : Prop :=
  committed resp = Some true ∨ (commitIntention = true ∧ (verdict resp > 0)%Z).

(** A page with one container and one row that has not heard from the
    server yet. *)
Definition page : DOM :=
  [ mkContainer "batch1" []
      [ mkRow "t1" [mkAttr "data-amount" "50" true]
          (Some (mkFeedback ∅ EmptyString)) ] ].

Definition warned_entry : ResponseEntry :=
  mkResponseEntry "t1" [] ["Unbalanced amount"] 1 (Some false).

Definition committed_entry : ResponseEntry :=
  mkResponseEntry "t1" [] [] 0 (Some true).

Definition clean_entry : ResponseEntry :=
  mkResponseEntry "t1" [] [] 0 None.

Definition fatal_entry : ResponseEntry :=
  mkResponseEntry "t1" ["Unknown account"] [] 3 None.

Definition stale_entry : ResponseEntry :=
  mkResponseEntry "t9" [] [] 0 (Some false).

(** The session state that the [switch] of [processResponse] leaves on a
    feedback element for the verdict codes 0, 1 and 3. *)
Definition verdict_painted (v : Z) (fb : Feedback) : Prop :=
  (v = 0%Z → dataset fb !! "verdict" = Some "commit"
             ∧ dataset fb !! "commit" = Some "true")
  ∧ (v = 1%Z → dataset fb !! "verdict" = Some "suggest-skip"
               ∧ dataset fb !! "commit" = None)
  ∧ (v = 3%Z → dataset fb !! "verdict" = Some "discard"
               ∧ dataset fb !! "commit" = None).

(** What the renderer leaves behind on a feedback element it keeps. *)
Definition StaticJs_painted (resp : ResponseEntry) (fb : Feedback) : Feedback :=
  set_innerHTML (StaticJs.feedback_markup (errors resp) (warnings resp))
    (set_dataset (StaticJs.apply_verdict (verdict resp) (dataset fb)) fb).

Definition Part000_painted (resp : ResponseEntry) (fb : Feedback) : Feedback :=
  set_innerHTML (Part000.feedback_markup (errors resp) (warnings resp))
    (set_dataset (StaticJs.apply_verdict (verdict resp) (dataset fb)) fb).

(** A row is marked when its feedback element carries a truthy [commit]. *)
Definition is_marked (r : Row) : bool :=
  from_option (λ fb, truthy (dataset fb !! "commit")) false (row_feedback r).

Definition feedback_verdict (r : Row) : option string :=
  fb ← row_feedback r; dataset fb !! "verdict".

(** The [pipelineSectionId] that [collectTransactions] reads for an id. *)
Definition section_of (d : DOM) (elementId : string) : option string :=
  select_id elementId d ≫= node_attr "data-pipeline-section-id" d.

(** [rec] is the record built for the (marked) row [r]. *)
Definition record_of (section : option string) (r : Row)
    (rec : gmap string jsvalue) : Prop :=
  ∃ fb, row_feedback r = Some fb ∧ rec = StaticJs.row_data section r fb.

(** A container with two rows, the first one unmarked. *)
Definition two_rows : DOM :=
  [ mkContainer "batch2" [mkAttr "data-pipeline-section-id" "7" true]
      [ mkRow "t1" [mkAttr "data-amount" "50" true]
          (Some (mkFeedback {[ "verdict" := "suggest-skip" ]} EmptyString));
        mkRow "t2" [mkAttr "data-amount" "75" true]
          (Some (mkFeedback
                   {[ "verdict" := "commit"; "commit" := "true" ]}
                   EmptyString)) ] ].

(** Every value written before the [do_not_skip] step is a string. *)
Definition all_strings (m : gmap string jsvalue) : Prop :=
  ∀ k b, m !! k ≠ Some (JBool b).

(** The rule for [do_not_skip] in the words of the specification. *)
Definition spec_do_not_skip (r : Row) : Prop :=
  ∃ v, feedback_verdict r = Some v ∧ v ≠ "commit".

(** The row of the scenario: marked for commit, no verdict yet. *)
Definition unjudged_row : Row :=
  mkRow "t1" [mkAttr "data-amount" "50" true]
    (Some (mkFeedback {[ "commit" := "true" ]} EmptyString)).

Definition batch1 : DOM := [ mkContainer "batch1" [] [unjudged_row] ].

Definition unjudged_record : gmap string jsvalue :=
  {[ "transaction_id" := JString "t1";
     "amount" := JString "50";
     "do_not_skip" := JBool true ]}.

(** The string holds no underscore. *)
Fixpoint no_underscore (s : string) : Prop :=
  match s with
  | EmptyString => True
  | String c s' => c ≠ "_"%char ∧ no_underscore s'
  end.

(** The attributes that [copy_attribute] writes to the record. *)
Definition is_copied (a : Attr) : bool :=
  startsWith (attr_name a) "data-" && attr_specified a.

(** The attribute mapping in the words of the specification: every [data-]
    attribute of the row is found in the record under its key, and no two of
    the row's [data-] attributes share a key. *)
Definition spec_attribute_mapping (section : option string) (r : Row)
    (fb : Feedback) : Prop :=
  (∀ a, a ∈ row_attributes r → startsWith (attr_name a) "data-" = true →
     StaticJs.row_data section r fb !! StaticJs.parameterName (attr_name a)
     = Some (JString (attr_value a)))
  ∧ (∀ a b, a ∈ row_attributes r → b ∈ row_attributes r →
       startsWith (attr_name a) "data-" = true →
       startsWith (attr_name b) "data-" = true →
       StaticJs.parameterName (attr_name a)
       = StaticJs.parameterName (attr_name b) →
       attr_name a = attr_name b).

(** A row as the templates render it: hyphenated [data-] names only. *)
Definition plain_row : Row :=
  mkRow "t1"
    [ mkAttr "class" "resolved-transaction" true;
      mkAttr "data-amount" "50" true;
      mkAttr "data-account-code" "4400" true ]
    (Some (mkFeedback {[ "verdict" := "commit"; "commit" := "true" ]}
             EmptyString)).

(** A row with two distinct attribute names that map to one key. *)
Definition clashing_row : Row :=
  mkRow "t1"
    [ mkAttr "data-a-b" "1" true; mkAttr "data-a_b" "2" true ]
    (Some (mkFeedback {[ "verdict" := "commit"; "commit" := "true" ]}
             EmptyString)).

(** The [commit] flag is only present next to a verdict other than
    [discard]; a page that has not heard from the server carries no flag. *)
Definition commit_flag_sound (fb : Feedback) : Prop :=
  is_Some (dataset fb !! "commit") →
  ∃ v, dataset fb !! "verdict" = Some v ∧ v ≠ "discard".

(** The state that must not occur: rejected for good, yet marked. *)
Definition discarded_and_marked (fb : Feedback) : Prop :=
  dataset fb !! "verdict" = Some "discard" ∧ is_Some (dataset fb !! "commit").

(** [P] holds of every feedback element of the document. *)
Definition all_feedback (P : Feedback → Prop) (d : DOM) : Prop :=
  Forall (λ c, Forall (λ r, from_option P True (row_feedback r))
                 (container_rows c)) d.

(** One operation on the page: [markForCommit] on the feedback element of some
    row, or [processResponse] on some response entry. *)
Inductive step : DOM → DOM → Prop :=
  | step_markForCommit d i j r fb commit :
      lookup_row i j d = Some r →
      row_feedback r = Some fb →
      step d (write_feedback i j (fst (StaticJs.markForCommit fb commit)) d)
  | step_processResponse d resp commitIntention :
      step d (snd (StaticJs.processResponse resp commitIntention d)).

(** The page after the server rejected [t1] for good and the user then tried
    to mark it for commit. *)
(** The page after the server rejected [t1] for good and the user then tried
    to mark it for commit, and the feedback element of [t1] on it. *)
Definition discarded_feedback : Feedback :=
  mkFeedback {[ "verdict" := "discard" ]}
    (html_list "transaction-errors" ["Unknown account"] +:+ "<br/>").

Definition page_after_discard : DOM :=
  write_feedback 0 0
    (fst (StaticJs.markForCommit (StaticJs_painted fatal_entry
                                    (mkFeedback ∅ EmptyString)) true))
    (snd (StaticJs.processResponse fatal_entry false page)).

(** Callbacks that only record how they were called. *)
Inductive call :=
  | CallEach (resp : ResponseEntry) (commitIntention : bool)
  | CallExtra (response : Response).

Definition log_each (resp : ResponseEntry) (commitIntention : bool)
    (log : list call) : completion unit * list call :=
  (Normal (), log ++ [CallEach resp commitIntention]).

Definition log_extra (response : Response) (log : list call)
  : completion unit * list call :=
  (Normal (), log ++ [CallExtra response]).



(** The ids of the elements of the document, in document order. *)
Definition element_ids (d : DOM) : list string :=
  c ← d; container_id c :: (row_id <$> container_rows c).

(** The value of the last attribute that [copy_attribute] writes under the
    key [k], if there is one. *)
Definition last_copied (k : string) (attrs : list Attr) : option string :=
  attr_value
    <$> last (filter (λ a, is_copied a = true
                           ∧ StaticJs.parameterName (attr_name a) = k) attrs).

Fixpoint count_hyphens (s : string) : nat :=
  match s with
  | EmptyString => 0
  | String c s' =>
      (if Ascii.eqb c "-"%char then 1 else 0) + count_hyphens s'
  end.

(** A row whose [data-transaction-id] differs from its element id. *)
Definition relabelled_row : Row :=
  mkRow "row-7"
    [ mkAttr "id" "row-7" true;
      mkAttr "data-transaction-id" "tx-7" true;
      mkAttr "title" "seven" true ]
    (Some (mkFeedback {[ "verdict" := "commit"; "commit" := "true" ]}
             EmptyString)).

(** A container one of whose rows has lost its feedback element. *)
Definition broken_rows : DOM :=
  [ mkContainer "batch3" []
      [ mkRow "t1" [] (Some (mkFeedback {[ "commit" := "true" ]} EmptyString));
        mkRow "t2" [] None ] ].

(** An extra callback that leaves the document alone. *)
Definition log_nothing (response : Response) (d : DOM)
  : completion unit * DOM :=
  (Normal (), d).

(** A feedback element after a non-fatal warning. *)
Definition warned_feedback : Feedback :=
  mkFeedback {[ "verdict" := "suggest-skip" ]} EmptyString.

(** * Properties *)

(** ** The document operations *)

Lemma node_valid_below c d n : node_valid d n → node_valid (c :: d) (below n).
Proof. by destruct n. Qed.

Lemma select_id_valid eid d n : select_id eid d = Some n → node_valid d n.
Proof.
  revert n. induction d as [|c d IH]; intros n; simpl; [done|].
  case_decide as Hc.
  - intros [= <-]. by eexists.
  - destruct (list_find _ (container_rows c)) as [[j r]|] eqn:Hfind.
    + intros [= <-]. apply list_find_Some in Hfind as (Hj & _).
      unfold node_valid, lookup_row. simpl. by eexists.
    + destruct (select_id eid d) as [m|]; intros [= <-].
      apply node_valid_below. by apply IH.
Qed.

Lemma dom_size_lookup (d : DOM) i c :
  d !! i = Some c → length (container_rows c) < dom_size d.
Proof.
  revert i. induction d as [|c0 d IH]; intros i Hi; [done|].
  destruct i as [|i]; simpl in *.
  - injection Hi as ->. lia.
  - specialize (IH i Hi). lia.
Qed.

Lemma dom_size_delete (d : DOM) i :
  is_Some (d !! i) → dom_size (delete i d) < dom_size d.
Proof.
  revert i. induction d as [|c d IH]; intros i [x Hx]; [done|].
  destruct i as [|i]; simpl in *; [lia|].
  specialize (IH i (ex_intro _ x Hx)). lia.
Qed.

Lemma dom_size_alter_rows (f : list Row → list Row) (d : DOM) i :
  dom_size (alter (λ c, set_rows (f (container_rows c)) c) i d)
  = dom_size d
    - from_option (λ c, length (container_rows c)) 0 (d !! i)
    + from_option (λ c, length (f (container_rows c))) 0 (d !! i).
Proof.
  revert i. induction d as [|c d IH]; intros i; [done|].
  destruct i as [|i]; simpl.
  - lia.
  - change (list_alter ?g i d) with (alter g i d).
    rewrite IH. destruct (d !! i) as [c'|] eqn:Hi; simpl; [|lia].
    apply dom_size_lookup in Hi. lia.
Qed.

Lemma dom_size_remove_node d n :
  node_valid d n → dom_size (remove_node n d) < dom_size d.
Proof.
  destruct n as [i|i j]; simpl.
  - apply dom_size_delete.
  - unfold lookup_row. intros [r Hr]. rewrite dom_size_alter_rows.
    destruct (d !! i) as [c|] eqn:Hi; simpl in *; [|done].
    assert (is_Some (container_rows c !! j)) as Hj by eauto.
    apply lookup_lt_is_Some in Hj. rewrite length_delete; [|done].
    apply dom_size_lookup in Hi. lia.
Qed.

Lemma dom_size_write_feedback i j fb d :
  dom_size (write_feedback i j fb d) = dom_size d.
Proof.
  unfold write_feedback. rewrite dom_size_alter_rows.
  destruct (d !! i) as [c|] eqn:Hi; simpl; [|lia].
  rewrite length_alter. apply dom_size_lookup in Hi. lia.
Qed.

Lemma remove_node_ne_write_feedback d n i j fb :
  node_valid d n → remove_node n d ≠ write_feedback i j fb d.
Proof.
  intros Hn Heq. apply dom_size_remove_node in Hn.
  rewrite Heq, dom_size_write_feedback in Hn. lia.
Qed.

Lemma lookup_row_write_feedback i j fb d r :
  lookup_row i j d = Some r →
  lookup_row i j (write_feedback i j fb d) = Some (set_feedback fb r).
Proof.
  unfold lookup_row, write_feedback. intros Hr.
  destruct (d !! i) as [c|] eqn:Hi; simpl in *; [|done].
  rewrite list_lookup_alter_eq, Hi. simpl.
  by rewrite list_lookup_alter_eq, Hr.
Qed.

Lemma find_feedback_row d n i j fb :
  find_feedback d n = Some (i, j, fb) →
  ∃ r, lookup_row i j d = Some r ∧ row_feedback r = Some fb.
Proof.
  destruct n as [k|k l]; simpl; unfold lookup_row.
  - destruct (d !! k) as [c|] eqn:Hk; simpl; [|done].
    destruct (list_find _ (container_rows c)) as [[l r]|] eqn:Hf; simpl; [|done].
    destruct (row_feedback r) as [fb'|] eqn:Hfb; simpl; [|done].
    intros [= <- <- <-]. apply list_find_Some in Hf as (Hl & _).
    exists r. by rewrite Hk.
  - destruct (d !! k) as [c|] eqn:Hk; simpl; [|done].
    destruct (container_rows c !! l) as [r|] eqn:Hl; simpl; [|done].
    destruct (row_feedback r) as [fb'|] eqn:Hfb; simpl; [|done].
    intros [= <- <- <-]. exists r. by rewrite Hk.
Qed.

(** ** The renderer *)

Lemma is_committed resp :
  default false (committed resp) = true ↔ committed resp = Some true.
Proof. destruct (committed resp) as [[]|]; simpl; split; congruence. Qed.

Lemma is_not_committed resp :
  committed resp ≠ Some true → default false (committed resp) = false.
Proof. destruct (committed resp) as [[]|]; simpl; congruence. Qed.

Lemma StaticJs_removes_iff resp ci :
  StaticJs.removes resp ci = true
  ↔ ci = true ∧ (committed resp = Some true ∨ (0 < verdict resp)%Z).
Proof.
  unfold StaticJs.removes.
  rewrite andb_true_iff, orb_true_iff, is_committed, Z.gtb_lt. tauto.
Qed.

Lemma Part000_removes_iff resp ci :
  Part000.removes resp ci = true
  ↔ committed resp = Some true ∨ (ci = true ∧ (0 < verdict resp)%Z).
Proof.
  unfold Part000.removes.
  rewrite orb_true_iff, andb_true_iff, is_committed, Z.gtb_lt. tauto.
Qed.

Lemma StaticJs_processResponse_cases resp ci d :
  StaticJs.processResponse resp ci d =
    if StaticJs.removes resp ci then
      (Normal (),
       from_option (λ n, remove_node n d) d (select_id (transaction_id resp) d))
    else
      match select_id (transaction_id resp) d ≫= find_feedback d with
      | Some (i, j, fb) =>
          (Normal (), write_feedback i j (StaticJs_painted resp fb) d)
      | None => (Throw TypeError, d)
      end.
Proof.
  unfold StaticJs.processResponse.
  destruct (StaticJs.removes resp ci); [done|].
  by destruct (select_id _ d ≫= find_feedback d) as [[[i j] fb]|].
Qed.

Lemma Part000_processResponse_cases resp ci d :
  Part000.processResponse resp ci d =
    if Part000.removes resp ci then
      (Normal (),
       from_option (λ n, remove_node n d) d (select_id (transaction_id resp) d))
    else
      match select_id (transaction_id resp) d ≫= find_feedback d with
      | Some (i, j, fb) =>
          (Normal (), write_feedback i j (Part000_painted resp fb) d)
      | None => (Throw TypeError, d)
      end.
Proof.
  unfold Part000.processResponse.
  destruct (Part000.removes resp ci); [done|].
  by destruct (select_id _ d ≫= find_feedback d) as [[[i j] fb]|].
Qed.

Lemma StaticJs_removal_iff d resp ci n :
  select_id (transaction_id resp) d = Some n →
  StaticJs.processResponse resp ci d = (Normal (), remove_node n d)
  ↔ StaticJs.removes resp ci = true.
Proof.
  intros Hsel. rewrite StaticJs_processResponse_cases, Hsel. simpl.
  destruct (StaticJs.removes resp ci); [done|].
  split; [|done].
  destruct (find_feedback d n) as [[[i j] fb]|]; [|done].
  intros [= Heq]. symmetry in Heq.
  by apply remove_node_ne_write_feedback in Heq; [|eapply select_id_valid].
Qed.

Lemma Part000_removal_iff d resp ci n :
  select_id (transaction_id resp) d = Some n →
  Part000.processResponse resp ci d = (Normal (), remove_node n d)
  ↔ Part000.removes resp ci = true.
Proof.
  intros Hsel. rewrite Part000_processResponse_cases, Hsel. simpl.
  destruct (Part000.removes resp ci); [done|].
  split; [|done].
  destruct (find_feedback d n) as [[[i j] fb]|]; [|done].
  intros [= Heq]. symmetry in Heq.
  by apply remove_node_ne_write_feedback in Heq; [|eapply select_id_valid].
Qed.

(** C1, as the code has it.  For a response entry whose [transaction_id]
    selects an element of the document, [processResponse] of
    [static/js/submit-transactions.js] removes that element and does nothing
    else if and only if the commit-intent flag is true and the entry is
    [committed] or has a verdict greater than 0; the second copy of the script
    removes it if and only if the entry is [committed], or the commit-intent
    flag is true and the verdict is greater than 0. *)
Theorem processResponse_removal_iff d resp commitIntention n :
  select_id (transaction_id resp) d = Some n →
  (StaticJs.processResponse resp commitIntention d
     = (Normal (), remove_node n d)
   ↔ commitIntention = true
     ∧ (committed resp = Some true ∨ (0 < verdict resp)%Z))
  ∧ (Part000.processResponse resp commitIntention d
       = (Normal (), remove_node n d)
     ↔ committed resp = Some true
       ∨ (commitIntention = true ∧ (0 < verdict resp)%Z)).
Proof.
  intros Hsel. split.
  - rewrite <- StaticJs_removes_iff. by apply StaticJs_removal_iff.
  - rewrite <- Part000_removes_iff. by apply Part000_removal_iff.
Qed.

Lemma processResponse_removal_iff_witness :
  (StaticJs.processResponse warned_entry true page
     = (Normal (), remove_node (RowAt 0 0) page)
   ↔ true = true
     ∧ (committed warned_entry = Some true ∨ (0 < verdict warned_entry)%Z))
  ∧ (Part000.processResponse warned_entry true page
       = (Normal (), remove_node (RowAt 0 0) page)
     ↔ committed warned_entry = Some true
       ∨ (true = true ∧ (0 < verdict warned_entry)%Z)).
Proof.
  apply (processResponse_removal_iff page warned_entry true (RowAt 0 0)).
  reflexivity.
Defined.

(** C1 as stated fails on [static/js/submit-transactions.js]: an entry with
    [committed = true] handed over without commit intent selects row [t1],
    satisfies the rule of the specification, and the row is kept. *)
Lemma committed_without_intent_is_kept :
  select_id (transaction_id committed_entry) page = Some (RowAt 0 0)
  ∧ ¬ (StaticJs.processResponse committed_entry false page
         = (Normal (), remove_node (RowAt 0 0) page)
       ↔ spec_terminal_removal committed_entry false).
Proof.
  split; [reflexivity|].
  intros [_ Hremoved].
  assert (spec_terminal_removal committed_entry false) as Hrule by (by left).
  apply Hremoved in Hrule.
  apply (f_equal (λ x, dom_size (snd x))) in Hrule.
  vm_compute in Hrule. discriminate Hrule.
Qed.

(** C2, as the code has it.  For an entry with verdict 3 that is not
    [committed] and whose [transaction_id] selects an element, both copies of
    [processResponse] remove the element exactly when the commit-intent flag
    is true; without commit intent the feedback element below it is kept,
    marked [discard] and loses its [commit] flag. *)
Theorem processResponse_discard_needs_intent d resp commitIntention n :
  select_id (transaction_id resp) d = Some n →
  verdict resp = 3%Z →
  committed resp ≠ Some true →
  (StaticJs.processResponse resp commitIntention d
     = (Normal (), remove_node n d) ↔ commitIntention = true)
  ∧ (Part000.processResponse resp commitIntention d
       = (Normal (), remove_node n d) ↔ commitIntention = true)
  ∧ (commitIntention = false →
     ∀ i j fb, find_feedback d n = Some (i, j, fb) →
       ∃ fb',
         StaticJs.processResponse resp commitIntention d
           = (Normal (), write_feedback i j fb' d)
         ∧ dataset fb' !! "verdict" = Some "discard"
         ∧ dataset fb' !! "commit" = None).
Proof.
  intros Hsel Hv Hc. split; [|split].
  - rewrite (StaticJs_removal_iff _ _ _ _ Hsel), StaticJs_removes_iff, Hv.
    split; [tauto|]. intros ->. split; [done|]. right. lia.
  - rewrite (Part000_removal_iff _ _ _ _ Hsel), Part000_removes_iff, Hv.
    split; [tauto|]. intros ->. right. split; [done|lia].
  - intros -> i j fb Hfb. exists (StaticJs_painted resp fb).
    rewrite StaticJs_processResponse_cases, Hsel. simpl. rewrite Hfb.
    split; [done|]. unfold StaticJs_painted. simpl. rewrite Hv. simpl.
    split.
    + by rewrite lookup_delete_ne, lookup_insert_eq.
    + by rewrite lookup_delete_eq.
Qed.

Lemma processResponse_discard_needs_intent_witness :
  (StaticJs.processResponse fatal_entry false page
     = (Normal (), remove_node (RowAt 0 0) page) ↔ false = true)
  ∧ (Part000.processResponse fatal_entry false page
       = (Normal (), remove_node (RowAt 0 0) page) ↔ false = true)
  ∧ (false = false →
     ∀ i j fb, find_feedback page (RowAt 0 0) = Some (i, j, fb) →
       ∃ fb',
         StaticJs.processResponse fatal_entry false page
           = (Normal (), write_feedback i j fb' page)
         ∧ dataset fb' !! "verdict" = Some "discard"
         ∧ dataset fb' !! "commit" = None).
Proof.
  apply (processResponse_discard_needs_intent page fatal_entry false (RowAt 0 0)).
  - reflexivity.
  - reflexivity.
  - simpl. discriminate.
Defined.

(** C2 as stated fails: an entry with verdict 3 and no [committed] field,
    handed over without commit intent, selects row [t1], and neither copy of
    [processResponse] removes the row. *)
Lemma discard_without_intent_is_kept :
  select_id (transaction_id fatal_entry) page = Some (RowAt 0 0)
  ∧ verdict fatal_entry = 3%Z
  ∧ committed fatal_entry = None
  ∧ StaticJs.processResponse fatal_entry false page
      ≠ (Normal (), remove_node (RowAt 0 0) page)
  ∧ Part000.processResponse fatal_entry false page
      ≠ (Normal (), remove_node (RowAt 0 0) page).
Proof.
  split; [reflexivity|]. split; [reflexivity|]. split; [reflexivity|].
  split; intros H; apply (f_equal (λ x, dom_size (snd x))) in H;
    vm_compute in H; discriminate H.
Qed.

Lemma apply_verdict_lookup (v : Z) (fb fb' : Feedback) :
  dataset fb' = StaticJs.apply_verdict v (dataset fb) →
  verdict_painted v fb'.
Proof.
  intros Hds. unfold verdict_painted. rewrite Hds.
  split; [|split]; intros ->; simpl; split.
  - by rewrite lookup_insert_ne, lookup_insert_eq.
  - by rewrite lookup_insert_eq.
  - by rewrite lookup_delete_ne, lookup_insert_eq.
  - by rewrite lookup_delete_eq.
  - by rewrite lookup_delete_ne, lookup_insert_eq.
  - by rewrite lookup_delete_eq.
Qed.

(** C7.  When [processResponse] does not take the removal branch and the
    selected element has a feedback element, that feedback element ends up
    with verdict [commit], [suggest-skip] or [discard] for the codes 0, 1 and
    3, and with the [commit] flag set to [true] for code 0 and cleared for
    codes 1 and 3; the row that owns it stays in the document.  In
    particular an entry with verdict 0 that is not [committed] is never
    removed, whatever the commit intent.  Both copies of the script agree on
    this. *)
Theorem processResponse_paints_verdict d resp commitIntention n i j fb :
  select_id (transaction_id resp) d = Some n →
  find_feedback d n = Some (i, j, fb) →
  (verdict resp = 0%Z → committed resp ≠ Some true →
   StaticJs.removes resp commitIntention = false
   ∧ Part000.removes resp commitIntention = false)
  ∧ (StaticJs.removes resp commitIntention = false →
     ∃ fb' r,
       StaticJs.processResponse resp commitIntention d
         = (Normal (), write_feedback i j fb' d)
       ∧ lookup_row i j (write_feedback i j fb' d) = Some r
       ∧ row_feedback r = Some fb'
       ∧ verdict_painted (verdict resp) fb')
  ∧ (Part000.removes resp commitIntention = false →
     ∃ fb' r,
       Part000.processResponse resp commitIntention d
         = (Normal (), write_feedback i j fb' d)
       ∧ lookup_row i j (write_feedback i j fb' d) = Some r
       ∧ row_feedback r = Some fb'
       ∧ verdict_painted (verdict resp) fb').
Proof.
  intros Hsel Hfb.
  destruct (find_feedback_row _ _ _ _ _ Hfb) as (r & Hr & _).
  split; [|split].
  - intros Hv Hc. unfold StaticJs.removes, Part000.removes.
    rewrite (is_not_committed _ Hc), Hv. by destruct commitIntention.
  - intros Hkeep.
    exists (StaticJs_painted resp fb), (set_feedback (StaticJs_painted resp fb) r).
    rewrite StaticJs_processResponse_cases, Hkeep, Hsel. simpl. rewrite Hfb.
    split; [done|]. split; [by apply lookup_row_write_feedback|].
    split; [done|]. by eapply apply_verdict_lookup.
  - intros Hkeep.
    exists (Part000_painted resp fb), (set_feedback (Part000_painted resp fb) r).
    rewrite Part000_processResponse_cases, Hkeep, Hsel. simpl. rewrite Hfb.
    split; [done|]. split; [by apply lookup_row_write_feedback|].
    split; [done|]. by eapply apply_verdict_lookup.
Qed.

Lemma processResponse_paints_verdict_witness :
  (verdict clean_entry = 0%Z → committed clean_entry ≠ Some true →
   StaticJs.removes clean_entry true = false
   ∧ Part000.removes clean_entry true = false)
  ∧ (StaticJs.removes clean_entry true = false →
     ∃ fb' r,
       StaticJs.processResponse clean_entry true page
         = (Normal (), write_feedback 0 0 fb' page)
       ∧ lookup_row 0 0 (write_feedback 0 0 fb' page) = Some r
       ∧ row_feedback r = Some fb'
       ∧ verdict_painted (verdict clean_entry) fb')
  ∧ (Part000.removes clean_entry true = false →
     ∃ fb' r,
       Part000.processResponse clean_entry true page
         = (Normal (), write_feedback 0 0 fb' page)
       ∧ lookup_row 0 0 (write_feedback 0 0 fb' page) = Some r
       ∧ row_feedback r = Some fb'
       ∧ verdict_painted (verdict clean_entry) fb').
Proof.
  apply (processResponse_paints_verdict page clean_entry true (RowAt 0 0) 0 0
           (mkFeedback ∅ EmptyString)).
  - reflexivity.
  - reflexivity.
Defined.

Example clean_entry_with_intent :
  StaticJs.processResponse clean_entry true page
  = (Normal (),
     [ mkContainer "batch1" []
         [ mkRow "t1" [mkAttr "data-amount" "50" true]
             (Some (mkFeedback {[ "verdict" := "commit"; "commit" := "true" ]}
                      EmptyString)) ] ]).
Proof. by vm_compute. Qed.

(** C10, as the code has it.  When the [transaction_id] of an entry selects
    no element, [processResponse] leaves the document as it is; it returns
    normally when the removal test holds and throws a [TypeError], on the
    undefined feedback element, when it does not. *)
Theorem processResponse_absent_element d resp commitIntention :
  select_id (transaction_id resp) d = None →
  snd (StaticJs.processResponse resp commitIntention d) = d
  ∧ (StaticJs.removes resp commitIntention = true →
     fst (StaticJs.processResponse resp commitIntention d) = Normal ())
  ∧ (StaticJs.removes resp commitIntention = false →
     fst (StaticJs.processResponse resp commitIntention d) = Throw TypeError)
  ∧ snd (Part000.processResponse resp commitIntention d) = d
  ∧ (Part000.removes resp commitIntention = true →
     fst (Part000.processResponse resp commitIntention d) = Normal ())
  ∧ (Part000.removes resp commitIntention = false →
     fst (Part000.processResponse resp commitIntention d) = Throw TypeError).
Proof.
  intros Hsel.
  rewrite StaticJs_processResponse_cases, Part000_processResponse_cases, Hsel.
  simpl.
  destruct (StaticJs.removes resp commitIntention),
    (Part000.removes resp commitIntention); naive_solver.
Qed.

Lemma processResponse_absent_element_witness :
  snd (StaticJs.processResponse stale_entry false page) = page
  ∧ (StaticJs.removes stale_entry false = true →
     fst (StaticJs.processResponse stale_entry false page) = Normal ())
  ∧ (StaticJs.removes stale_entry false = false →
     fst (StaticJs.processResponse stale_entry false page) = Throw TypeError)
  ∧ snd (Part000.processResponse stale_entry false page) = page
  ∧ (Part000.removes stale_entry false = true →
     fst (Part000.processResponse stale_entry false page) = Normal ())
  ∧ (Part000.removes stale_entry false = false →
     fst (Part000.processResponse stale_entry false page) = Throw TypeError).
Proof.
  apply (processResponse_absent_element page stale_entry false).
  reflexivity.
Defined.

(** C10 as stated fails: the id [t9] selects nothing in [page], and
    [processResponse] throws for the entry in both copies of the script when
    there is no commit intent. *)
Lemma absent_element_throws :
  select_id (transaction_id stale_entry) page = None
  ∧ StaticJs.processResponse stale_entry false page = (Throw TypeError, page)
  ∧ Part000.processResponse stale_entry false page = (Throw TypeError, page).
Proof. repeat split. Qed.

(** ** The collector *)

Lemma jquery_map_cons {A B : Type} (f : A → completion (option B)) x l :
  StaticJs.jquery_map f (x :: l) =
    match f x with
    | Normal r =>
        match StaticJs.jquery_map f l with
        | Normal rs => Normal (match r with Some y => y :: rs | None => rs end)
        | Throw e => Throw e
        end
    | Throw e => Throw e
    end.
Proof. reflexivity. Qed.

Lemma row_callback_cases section r :
  StaticJs.row_callback section r =
    match row_feedback r with
    | Some fb =>
        Normal (if is_marked r then Some (StaticJs.row_data section r fb)
                else None)
    | None => Throw TypeError
    end.
Proof.
  unfold StaticJs.row_callback, is_marked.
  destruct (row_feedback r) as [fb|]; [|done]. simpl.
  by destruct (truthy _).
Qed.

Lemma jquery_map_rows section rows recs :
  StaticJs.jquery_map (StaticJs.row_callback section) rows = Normal recs →
  Forall2 (record_of section) (filter (λ r, is_marked r = true) rows) recs.
Proof.
  revert recs. induction rows as [|r rows IH]; intros recs.
  - intros [= <-]. constructor.
  - rewrite jquery_map_cons, row_callback_cases.
    destruct (row_feedback r) as [fb|] eqn:Hfb; [|done].
    destruct (StaticJs.jquery_map _ rows) as [rs|] eqn:Hrs; [|done].
    specialize (IH rs eq_refl).
    destruct (is_marked r) eqn:Hmark; intros [= <-].
    + rewrite filter_cons_True by done.
      constructor; [by exists fb|done].
    + rewrite filter_cons_False; [done|congruence].
Qed.

Lemma jquery_map_rows_total section rows :
  Forall (λ r, is_Some (row_feedback r)) rows →
  ∃ recs,
    StaticJs.jquery_map (StaticJs.row_callback section) rows = Normal recs.
Proof.
  induction 1 as [|r rows [fb Hfb] _ [recs IH]]; [by eexists|].
  rewrite jquery_map_cons, row_callback_cases, Hfb, IH. by eexists.
Qed.

(** The collector of the second copy never yields a record: its callback
    throws on the first row that passes the filter. *)
Lemma Part000_collectTransactions_cases d elementId :
  Part000.collectTransactions d elementId =
    match filter (λ r, get_attribute "data-commit" (row_attributes r)
                       = Some "true") (select_rows elementId d) with
    | [] => Normal []
    | _ :: _ => Throw TypeError
    end.
Proof.
  unfold Part000.collectTransactions.
  by destruct (filter _ (select_rows elementId d)).
Qed.

(** C6.  When every row below the container has its feedback element,
    [collectTransactions] returns normally, and its result lists exactly the
    records of the rows marked with a truthy [commit], one per row and in
    document order: a row that is not marked contributes nothing. *)
Theorem collectTransactions_only_marked d elementId :
  Forall (λ r, is_Some (row_feedback r)) (select_rows elementId d) →
  (∀ r, r ∈ select_rows elementId d → is_marked r = false →
     StaticJs.row_callback (section_of d elementId) r = Normal None)
  ∧ ∃ recs,
      StaticJs.collectTransactions d elementId = Normal recs
      ∧ length recs
        = length (filter (λ r, is_marked r = true) (select_rows elementId d))
      ∧ Forall2 (record_of (section_of d elementId))
          (filter (λ r, is_marked r = true) (select_rows elementId d)) recs.
Proof.
  intros Hfb. split.
  - intros r Hr Hmark. rewrite row_callback_cases, Hmark.
    rewrite Forall_forall in Hfb. by destruct (Hfb r Hr) as [fb ->].
  - unfold StaticJs.collectTransactions.
    destruct (jquery_map_rows_total (section_of d elementId) _ Hfb)
      as [recs Hrecs].
    exists recs. split; [done|].
    apply jquery_map_rows in Hrecs.
    split; [|done]. symmetry. by eapply Forall2_length.
Qed.

Lemma collectTransactions_only_marked_witness :
  (∀ r, r ∈ select_rows "batch2" two_rows → is_marked r = false →
     StaticJs.row_callback (section_of two_rows "batch2") r = Normal None)
  ∧ ∃ recs,
      StaticJs.collectTransactions two_rows "batch2" = Normal recs
      ∧ length recs
        = length (filter (λ r, is_marked r = true)
                    (select_rows "batch2" two_rows))
      ∧ Forall2 (record_of (section_of two_rows "batch2"))
          (filter (λ r, is_marked r = true) (select_rows "batch2" two_rows))
          recs.
Proof.
  apply (collectTransactions_only_marked two_rows "batch2").
  vm_compute. repeat constructor; by eexists.
Defined.

Example collectTransactions_two_rows :
  StaticJs.collectTransactions two_rows "batch2"
  = Normal [ {[ "transaction_id" := JString "t2";
                "pipeline_section_id" := JString "7";
                "amount" := JString "75" ]} ].
Proof. by vm_compute. Qed.

Lemma all_strings_insert k s m :
  all_strings m → all_strings (<[k := JString s]> m).
Proof.
  intros Hm k' b. rewrite lookup_insert. case_decide; [done|apply Hm].
Qed.

Lemma all_strings_js_set k s m :
  all_strings m → all_strings (js_set k (JString s) m).
Proof.
  intros Hm. unfold js_set. case_decide; [done|by apply all_strings_insert].
Qed.

Lemma all_strings_copy_attributes attrs m :
  all_strings m → all_strings (foldl StaticJs.copy_attribute m attrs).
Proof.
  revert m. induction attrs as [|a attrs IH]; intros m Hm; simpl; [done|].
  apply IH. unfold StaticJs.copy_attribute.
  destruct (_ && _); [by apply all_strings_js_set|done].
Qed.

Lemma row_data_do_not_skip section r fb :
  StaticJs.row_data section r fb !! "do_not_skip" = Some (JBool true)
  ↔ dataset fb !! "verdict" ≠ Some "commit".
Proof.
  unfold StaticJs.row_data. case_decide as Hv.
  - by rewrite lookup_insert_eq.
  - split; [|done]. intros Hskip. exfalso. revert Hskip.
    apply all_strings_copy_attributes.
    destruct section; [apply all_strings_insert|];
      intros k b; rewrite lookup_singleton; by case_decide.
Qed.

(** C3, as the code has it.  In the result of [collectTransactions] the
    record of an included row carries [do_not_skip = true] if and only if the
    [verdict] of the row's feedback element is not ['commit']; an absent
    verdict counts as not ['commit']. *)
Theorem do_not_skip_iff_verdict_not_commit d elementId recs :
  StaticJs.collectTransactions d elementId = Normal recs →
  Forall2
    (λ r rec,
       rec !! "do_not_skip" = Some (JBool true)
       ↔ feedback_verdict r ≠ Some "commit")
    (filter (λ r, is_marked r = true) (select_rows elementId d)) recs.
Proof.
  intros Hrecs. apply jquery_map_rows in Hrecs.
  eapply Forall2_impl; [exact Hrecs|].
  intros r rec (fb & Hfb & ->). unfold feedback_verdict. rewrite Hfb. simpl.
  apply row_data_do_not_skip.
Qed.

Lemma do_not_skip_iff_verdict_not_commit_witness :
  Forall2
    (λ r rec,
       rec !! "do_not_skip" = Some (JBool true)
       ↔ feedback_verdict r ≠ Some "commit")
    (filter (λ r, is_marked r = true) (select_rows "batch1" batch1))
    [unjudged_record].
Proof.
  apply (do_not_skip_iff_verdict_not_commit batch1 "batch1" [unjudged_record]).
  vm_compute. reflexivity.
Defined.

(** C3 as stated fails: the row of [batch1] is included, its feedback element
    has no verdict, and its record carries [do_not_skip = true]. *)
Lemma do_not_skip_without_verdict :
  select_rows "batch1" batch1 = [unjudged_row]
  ∧ StaticJs.collectTransactions batch1 "batch1" = Normal [unjudged_record]
  ∧ feedback_verdict unjudged_row = None
  ∧ ¬ (unjudged_record !! "do_not_skip" = Some (JBool true)
       ↔ spec_do_not_skip unjudged_row).
Proof.
  split; [reflexivity|]. split; [by vm_compute|]. split; [reflexivity|].
  intros [Hskip _]. destruct Hskip as (v & Hv & _); [reflexivity|].
  vm_compute in Hv. discriminate Hv.
Qed.

(** C4, as the code has it.  A container without a
    [data-pipeline-section-id], holding the single row [t1] whose feedback
    element carries [commit = "true"] and nothing else and whose only data
    attribute is [data-amount = "50"], is collected into one record with
    [transaction_id], [amount] and [do_not_skip = true], and no
    [pipeline_section_id]. *)
Theorem collectTransactions_scenario cid cattrs html :
  get_attribute "data-pipeline-section-id" cattrs = None →
  StaticJs.collectTransactions
    [ mkContainer cid cattrs
        [ mkRow "t1" [mkAttr "data-amount" "50" true]
            (Some (mkFeedback {[ "commit" := "true" ]} html)) ] ]
    cid
  = Normal [ {[ "transaction_id" := JString "t1";
                "amount" := JString "50";
                "do_not_skip" := JBool true ]} ].
Proof.
  intros Hsection. unfold StaticJs.collectTransactions, select_rows.
  simpl. rewrite decide_True by done. simpl. rewrite Hsection.
  rewrite filter_cons_True by done. simpl.
  by vm_compute.
Qed.

Lemma collectTransactions_scenario_witness :
  StaticJs.collectTransactions
    [ mkContainer "batch1" []
        [ mkRow "t1" [mkAttr "data-amount" "50" true]
            (Some (mkFeedback {[ "commit" := "true" ]} EmptyString)) ] ]
    "batch1"
  = Normal [ {[ "transaction_id" := JString "t1";
                "amount" := JString "50";
                "do_not_skip" := JBool true ]} ].
Proof.
  apply (collectTransactions_scenario "batch1" [] EmptyString).
  reflexivity.
Defined.

(** C4 as stated fails: the result for [batch1] is not the list holding the
    record with only [transaction_id] and [amount]. *)
Lemma scenario_record_has_do_not_skip :
  StaticJs.collectTransactions batch1 "batch1"
  ≠ Normal [ {[ "transaction_id" := JString "t1"; "amount" := JString "50" ]} ].
Proof.
  intros H.
  apply (f_equal (λ c, match c with
                       | Normal [rec] => rec !! "do_not_skip"
                       | _ => None
                       end)) in H.
  vm_compute in H. discriminate H.
Qed.

(** ** From attribute names to record keys *)

(** The first draft turns only the first hyphen into an underscore. *)
Example FirstDraft_parameterName :
  FirstDraft.parameterName "data-pipeline-section-id" = "pipeline_section-id"
  ∧ StaticJs.parameterName "data-pipeline-section-id" = "pipeline_section_id".
Proof. split; reflexivity. Qed.

Lemma hyphen_to_underscore_inj c1 c2 :
  c1 ≠ "_"%char → c2 ≠ "_"%char →
  hyphen_to_underscore c1 = hyphen_to_underscore c2 → c1 = c2.
Proof.
  unfold hyphen_to_underscore. intros H1 H2.
  destruct (Ascii.eqb c1 "-") eqn:E1, (Ascii.eqb c2 "-") eqn:E2;
    try apply Ascii.eqb_eq in E1; try apply Ascii.eqb_eq in E2;
    congruence.
Qed.

Lemma replace_hyphens_inj s1 s2 :
  no_underscore s1 → no_underscore s2 →
  replace_hyphens s1 = replace_hyphens s2 → s1 = s2.
Proof.
  revert s2. induction s1 as [|c1 s1 IH]; intros [|c2 s2]; simpl; try done.
  intros [Hc1 Hs1] [Hc2 Hs2] [= Hc Hs]. f_equal.
  - by apply hyphen_to_underscore_inj.
  - by apply IH.
Qed.

Lemma no_underscore_substring_from n s :
  no_underscore s → no_underscore (substring_from n s).
Proof.
  revert s. induction n as [|n IH]; intros [|c s]; simpl; try done.
  intros [_ Hs]. by apply IH.
Qed.

Lemma prefix_cons c p s :
  String.prefix (String c p) s = true →
  ∃ s', s = String c s' ∧ String.prefix p s' = true.
Proof.
  destruct s as [|a s]; [done|].
  change (String.prefix (String c p) (String a s))
    with (if Ascii.ascii_dec c a then String.prefix p s else false).
  destruct (Ascii.ascii_dec c a) as [<-|]; [|done]. by exists s.
Qed.

Lemma startsWith_data s :
  startsWith s "data-" = true → s = "data-" +:+ substring_from 5 s.
Proof.
  unfold startsWith. intros H.
  do 5 (apply prefix_cons in H as (? & -> & H)). done.
Qed.

Lemma parameterName_inj n1 n2 :
  startsWith n1 "data-" = true → startsWith n2 "data-" = true →
  no_underscore n1 → no_underscore n2 →
  StaticJs.parameterName n1 = StaticJs.parameterName n2 → n1 = n2.
Proof.
  intros Hp1 Hp2 Hu1 Hu2 Hkey.
  rewrite (startsWith_data _ Hp1), (startsWith_data _ Hp2). f_equal.
  apply replace_hyphens_inj; [by apply no_underscore_substring_from..|done].
Qed.

Lemma copy_attribute_lookup m a k :
  StaticJs.copy_attribute m a !! k =
    if decide (is_copied a = true
               ∧ StaticJs.parameterName (attr_name a) = k
               ∧ k ≠ "__proto__")
    then Some (JString (attr_value a)) else m !! k.
Proof.
  unfold StaticJs.copy_attribute, is_copied, js_set.
  destruct (_ && _).
  - destruct (decide (StaticJs.parameterName (attr_name a) = "__proto__"))
      as [Hproto|Hproto].
    + rewrite decide_False; [done|]. intros (_ & <- & Hk). done.
    + rewrite lookup_insert.
      destruct (decide (StaticJs.parameterName (attr_name a) = k)) as [<-|Hk].
      * by rewrite decide_True.
      * rewrite decide_False; [done|]. by intros (_ & ? & _).
  - rewrite decide_False; [done|]. by intros (? & _).
Qed.

Lemma copy_attributes_other k attrs m :
  Forall (λ b, is_copied b = true → StaticJs.parameterName (attr_name b) ≠ k)
    attrs →
  foldl StaticJs.copy_attribute m attrs !! k = m !! k.
Proof.
  intros Hall. revert m. induction Hall as [|b attrs Hb _ IH]; intros m;
    simpl; [done|].
  rewrite IH, copy_attribute_lookup.
  rewrite decide_False; [done|]. intros (Hc & Hk & _). by apply Hb.
Qed.

(** The value found at a key is the one of the last copied attribute that
    maps to it. *)
Lemma copy_attributes_last l1 a l2 m :
  is_copied a = true →
  StaticJs.parameterName (attr_name a) ≠ "__proto__" →
  Forall (λ b, is_copied b = true →
               StaticJs.parameterName (attr_name b)
               ≠ StaticJs.parameterName (attr_name a)) l2 →
  foldl StaticJs.copy_attribute m (l1 ++ a :: l2)
    !! StaticJs.parameterName (attr_name a)
  = Some (JString (attr_value a)).
Proof.
  intros Ha Hproto Hl2. rewrite foldl_app. simpl.
  rewrite copy_attributes_other by done.
  rewrite copy_attribute_lookup. by rewrite decide_True.
Qed.

(** C8, as the code has it.  On a row whose attribute names are distinct and
    whose [data-] attribute names hold no underscore, the mapping from
    attribute name to record key (drop [data-], turn every hyphen into an
    underscore) is injective, and the record holds the value of every
    specified [data-] attribute under its key, except for the key
    [__proto__], which is never written, and for the key [do_not_skip] when
    that flag is set. *)
Theorem data_attributes_copied section r fb :
  NoDup (attr_name <$> row_attributes r) →
  Forall (λ a, startsWith (attr_name a) "data-" = true →
               no_underscore (attr_name a)) (row_attributes r) →
  (∀ a b, a ∈ row_attributes r → b ∈ row_attributes r →
     startsWith (attr_name a) "data-" = true →
     startsWith (attr_name b) "data-" = true →
     StaticJs.parameterName (attr_name a)
     = StaticJs.parameterName (attr_name b) →
     attr_name a = attr_name b)
  ∧ (∀ a, a ∈ row_attributes r →
       startsWith (attr_name a) "data-" = true →
       attr_specified a = true →
       StaticJs.parameterName (attr_name a) ≠ "__proto__" →
       StaticJs.parameterName (attr_name a) ≠ "do_not_skip"
       ∨ dataset fb !! "verdict" = Some "commit" →
       StaticJs.row_data section r fb !! StaticJs.parameterName (attr_name a)
       = Some (JString (attr_value a))).
Proof.
  intros Hnodup Hplain.
  assert (∀ a b, a ∈ row_attributes r → b ∈ row_attributes r →
     startsWith (attr_name a) "data-" = true →
     startsWith (attr_name b) "data-" = true →
     StaticJs.parameterName (attr_name a)
     = StaticJs.parameterName (attr_name b) →
     attr_name a = attr_name b) as Hinj.
  { intros a b Ha Hb Hpa Hpb Hkey. rewrite Forall_forall in Hplain.
    apply parameterName_inj; auto. }
  split; [done|].
  intros a Ha Hpa Hsa Hproto Hskip.
  assert (foldl StaticJs.copy_attribute
            (match section with
             | Some p =>
                 <["pipeline_section_id" := JString p]>
                   ({[ "transaction_id" := JString (row_id r) ]}
                      : gmap string jsvalue)
             | None => {[ "transaction_id" := JString (row_id r) ]}
             end) (row_attributes r)
          !! StaticJs.parameterName (attr_name a)
          = Some (JString (attr_value a))) as Hcopied.
  { apply list_elem_of_split in Ha as (l1 & l2 & Hsplit).
    rewrite Hsplit in *. apply copy_attributes_last; [|done|].
    - unfold is_copied. by rewrite Hpa, Hsa.
    - apply Forall_forall. intros b Hb Hcb Hkey.
      apply andb_true_iff in Hcb as [Hpb _].
      assert (attr_name b = attr_name a) as Hname.
      { apply Hinj; [| |done..].
        - rewrite elem_of_app, elem_of_cons. auto.
        - rewrite elem_of_app, elem_of_cons. auto. }
      rewrite fmap_app, fmap_cons in Hnodup.
      apply NoDup_app in Hnodup as (_ & _ & Hnodup).
      apply NoDup_cons in Hnodup as [Hnotin _].
      apply Hnotin. rewrite <- Hname. by apply list_elem_of_fmap_2. }
  unfold StaticJs.row_data. case_decide as Hv; [|done].
  destruct Hskip as [Hskip|Hskip]; [|done].
  by rewrite lookup_insert_ne.
Qed.

Lemma data_attributes_copied_witness :
  (∀ a b, a ∈ row_attributes plain_row → b ∈ row_attributes plain_row →
     startsWith (attr_name a) "data-" = true →
     startsWith (attr_name b) "data-" = true →
     StaticJs.parameterName (attr_name a)
     = StaticJs.parameterName (attr_name b) →
     attr_name a = attr_name b)
  ∧ (∀ a, a ∈ row_attributes plain_row →
       startsWith (attr_name a) "data-" = true →
       attr_specified a = true →
       StaticJs.parameterName (attr_name a) ≠ "__proto__" →
       StaticJs.parameterName (attr_name a) ≠ "do_not_skip"
       ∨ dataset (mkFeedback {[ "verdict" := "commit"; "commit" := "true" ]}
                    EmptyString) !! "verdict" = Some "commit" →
       StaticJs.row_data None plain_row
         (mkFeedback {[ "verdict" := "commit"; "commit" := "true" ]}
            EmptyString)
         !! StaticJs.parameterName (attr_name a)
       = Some (JString (attr_value a))).
Proof.
  apply (data_attributes_copied None plain_row
           (mkFeedback {[ "verdict" := "commit"; "commit" := "true" ]}
              EmptyString)).
  - by apply (bool_decide_unpack _).
  - simpl. repeat constructor; intros; simpl; repeat split; discriminate.
Defined.

(** C8 as stated fails: [data-a-b] and [data-a_b] are different attributes of
    [clashing_row] with the same key [a_b], and the record keeps only the
    value of the second. *)
Lemma attribute_keys_clash :
  StaticJs.parameterName "data-a-b" = StaticJs.parameterName "data-a_b"
  ∧ StaticJs.row_data None clashing_row
      (mkFeedback {[ "verdict" := "commit"; "commit" := "true" ]} EmptyString)
      !! "a_b" = Some (JString "2")
  ∧ ¬ spec_attribute_mapping None clashing_row
        (mkFeedback {[ "verdict" := "commit"; "commit" := "true" ]}
           EmptyString).
Proof.
  split; [reflexivity|]. split; [by vm_compute|].
  intros [_ Hinj].
  specialize (Hinj (mkAttr "data-a-b" "1" true) (mkAttr "data-a_b" "2" true)).
  simpl in Hinj. discriminate Hinj; try reflexivity; set_solver.
Qed.

(** ** Session state: a discarded row is never marked for commit *)

Lemma all_feedback_lookup P d i j r fb :
  all_feedback P d → lookup_row i j d = Some r → row_feedback r = Some fb →
  P fb.
Proof.
  unfold all_feedback, lookup_row. intros Hall Hr Hfb.
  destruct (d !! i) as [c|] eqn:Hi; simpl in *; [|done].
  eapply Forall_lookup_1 in Hall; [|exact Hi].
  eapply Forall_lookup_1 in Hall; [|exact Hr].
  by rewrite Hfb in Hall.
Qed.

Lemma all_feedback_write_feedback P d i j fb :
  all_feedback P d → P fb → all_feedback P (write_feedback i j fb d).
Proof.
  unfold all_feedback, write_feedback. intros Hall Hfb.
  apply Forall_alter; [done|]. intros c _ Hc. simpl.
  by apply Forall_alter.
Qed.

Lemma all_feedback_remove_node P d n :
  all_feedback P d → all_feedback P (remove_node n d).
Proof.
  unfold all_feedback. intros Hall. destruct n as [i|i j]; simpl.
  - by apply Forall_delete.
  - apply Forall_alter; [done|]. intros c _ Hc. simpl.
    by apply Forall_delete.
Qed.

Lemma markForCommit_refused fb :
  dataset fb !! "verdict" = Some "discard" ∨ dataset fb !! "verdict" = None →
  StaticJs.markForCommit fb true = (fb, false).
Proof.
  intros Hv. unfold StaticJs.markForCommit. rewrite decide_True; [done|tauto].
Qed.

Lemma markForCommit_sound fb commit :
  commit_flag_sound fb →
  commit_flag_sound (fst (StaticJs.markForCommit fb commit)).
Proof.
  unfold StaticJs.markForCommit, commit_flag_sound. intros Hfb.
  case_decide as Hv; [done|]. destruct commit; simpl.
  - intros _. rewrite lookup_insert_ne by done.
    destruct (dataset fb !! "verdict") as [v|]; [|tauto].
    exists v. split; [done|]. intros ->. tauto.
  - rewrite lookup_delete_eq. by intros [? ?].
Qed.

Lemma markForCommit_not_discarded fb commit :
  ¬ discarded_and_marked fb →
  ¬ discarded_and_marked (fst (StaticJs.markForCommit fb commit)).
Proof.
  unfold StaticJs.markForCommit, discarded_and_marked. intros Hfb.
  case_decide as Hv; [done|]. destruct commit; simpl.
  - rewrite lookup_insert_ne by done. tauto.
  - rewrite lookup_delete_eq. by intros [_ [? ?]].
Qed.

Lemma apply_verdict_other (v : Z) (ds : gmap string string) :
  v ≠ 0%Z → v ≠ 1%Z → v ≠ 3%Z → StaticJs.apply_verdict v ds = ds.
Proof.
  intros H0 H1 H3. destruct v as [|p|p]; [done| |done].
  destruct p as [[]|[]|]; done.
Qed.

(** The four ways the [switch] can leave the session state. *)
Lemma painted_cases resp fb :
  (dataset (StaticJs_painted resp fb) !! "verdict" = Some "commit"
   ∧ dataset (StaticJs_painted resp fb) !! "commit" = Some "true")
  ∨ (dataset (StaticJs_painted resp fb) !! "verdict" = Some "suggest-skip"
     ∧ dataset (StaticJs_painted resp fb) !! "commit" = None)
  ∨ (dataset (StaticJs_painted resp fb) !! "verdict" = Some "discard"
     ∧ dataset (StaticJs_painted resp fb) !! "commit" = None)
  ∨ dataset (StaticJs_painted resp fb) = dataset fb.
Proof.
  destruct (apply_verdict_lookup (verdict resp) fb (StaticJs_painted resp fb)
              eq_refl) as (Hcommit & Hskip & Hdiscard).
  destruct (decide (verdict resp = 0%Z)) as [H0|H0]; [by auto|].
  destruct (decide (verdict resp = 1%Z)) as [H1|H1]; [by auto|].
  destruct (decide (verdict resp = 3%Z)) as [H3|H3]; [by auto 10|].
  do 3 right. unfold StaticJs_painted. simpl. by apply apply_verdict_other.
Qed.

Lemma painted_sound resp fb :
  commit_flag_sound fb → commit_flag_sound (StaticJs_painted resp fb).
Proof.
  unfold commit_flag_sound. intros Hfb.
  destruct (painted_cases resp fb)
    as [[-> ->] | [[_ ->] | [[_ ->] | ->]]];
    [|by intros [? ?]..|done].
  intros _. by exists "commit".
Qed.

Lemma painted_not_discarded resp fb :
  ¬ discarded_and_marked fb →
  ¬ discarded_and_marked (StaticJs_painted resp fb).
Proof.
  unfold discarded_and_marked. intros Hfb.
  destruct (painted_cases resp fb)
    as [[-> ->] | [[_ ->] | [[_ ->] | ->]]];
    [by intros [? _]|by intros [_ [? ?]]..|done].
Qed.

(** A property of feedback elements that [markForCommit] and the [switch]
    preserve is preserved by every operation on the page. *)
Section Invariant.
Variable P : Feedback → Prop.
Hypothesis P_markForCommit :
  ∀ fb commit, P fb → P (fst (StaticJs.markForCommit fb commit)).
Hypothesis P_painted : ∀ resp fb, P fb → P (StaticJs_painted resp fb).

Lemma processResponse_preserves resp commitIntention d :
  all_feedback P d →
  all_feedback P (snd (StaticJs.processResponse resp commitIntention d)).
Proof.
  intros Hall. rewrite StaticJs_processResponse_cases.
  destruct (StaticJs.removes resp commitIntention); simpl.
  - destruct (select_id _ d) as [n|]; simpl;
      [by apply all_feedback_remove_node|done].
  - destruct (select_id _ d) as [n|] eqn:Hsel; simpl; [|done].
    destruct (find_feedback d n) as [[[i j] fb]|] eqn:Hfb; simpl; [|done].
    apply all_feedback_write_feedback; [done|].
    apply P_painted.
    destruct (find_feedback_row _ _ _ _ _ Hfb) as (r & Hr & Hrfb).
    by eapply all_feedback_lookup.
Qed.

Lemma step_preserves d d' :
  step d d' → all_feedback P d → all_feedback P d'.
Proof.
  intros [d0 i j r fb commit Hr Hfb|d0 resp commitIntention] Hall.
  - apply all_feedback_write_feedback; [done|].
    apply P_markForCommit. by eapply all_feedback_lookup.
  - by apply processResponse_preserves.
Qed.

Lemma reachable_preserves d d' :
  rtc step d d' → all_feedback P d → all_feedback P d'.
Proof. induction 1; eauto using step_preserves. Qed.
End Invariant.

(** C9.  After any sequence of [markForCommit] and [processResponse] calls
    on a page, for every feedback element of the page reached:
    it does not have verdict [discard] together with the [commit] flag,
    provided no feedback element of the initial page had;
    [markForCommit(feedback, true)] changes nothing and returns [false] when
    its verdict is [discard] or absent;
    and in that case its [commit] flag is unset, provided that on the initial
    page the flag only appeared next to a verdict other than [discard] (as on
    a page without session state). *)
Theorem discarded_row_never_marked d d' i j r fb :
  rtc step d d' →
  lookup_row i j d' = Some r →
  row_feedback r = Some fb →
  (all_feedback (λ fb0, ¬ discarded_and_marked fb0) d →
   ¬ discarded_and_marked fb)
  ∧ (dataset fb !! "verdict" = Some "discard"
     ∨ dataset fb !! "verdict" = None →
     StaticJs.markForCommit fb true = (fb, false))
  ∧ (all_feedback commit_flag_sound d →
     dataset fb !! "verdict" = Some "discard"
     ∨ dataset fb !! "verdict" = None →
     dataset (fst (StaticJs.markForCommit fb true)) !! "commit" = None).
Proof.
  intros Hreach Hr Hfb. split; [|split].
  - intros Hinit.
    eapply (all_feedback_lookup (λ fb0, ¬ discarded_and_marked fb0));
      [|exact Hr|exact Hfb].
    eapply reachable_preserves; [| |exact Hreach|exact Hinit].
    + intros fb0 commit. apply markForCommit_not_discarded.
    + intros resp fb0. apply painted_not_discarded.
  - apply markForCommit_refused.
  - intros Hinit Hv. rewrite markForCommit_refused by done. simpl.
    assert (commit_flag_sound fb) as Hsound.
    { eapply all_feedback_lookup; [|exact Hr|exact Hfb].
      eapply reachable_preserves; [| |exact Hreach|exact Hinit].
      - intros fb0 commit. apply markForCommit_sound.
      - intros resp fb0. apply painted_sound. }
    destruct (dataset fb !! "commit") as [c|] eqn:Hc; [|done].
    destruct Hsound as (v & Hv' & Hne); [by eexists|].
    destruct Hv; congruence.
Qed.

Lemma discarded_row_never_marked_witness :
  (all_feedback (λ fb0, ¬ discarded_and_marked fb0) page →
   ¬ discarded_and_marked discarded_feedback)
  ∧ (dataset discarded_feedback !! "verdict" = Some "discard"
     ∨ dataset discarded_feedback !! "verdict" = None →
     StaticJs.markForCommit discarded_feedback true
     = (discarded_feedback, false))
  ∧ (all_feedback commit_flag_sound page →
     dataset discarded_feedback !! "verdict" = Some "discard"
     ∨ dataset discarded_feedback !! "verdict" = None →
     dataset (fst (StaticJs.markForCommit discarded_feedback true))
       !! "commit" = None).
Proof.
  apply (discarded_row_never_marked page page_after_discard 0 0
           (mkRow "t1" [mkAttr "data-amount" "50" true]
              (Some discarded_feedback))
           discarded_feedback).
  - eapply rtc_l; [apply (step_processResponse page fatal_entry false)|].
    eapply rtc_l; [|apply rtc_refl].
    eapply (step_markForCommit _ 0 0 _ _ true); reflexivity.
  - by vm_compute.
  - reflexivity.
Defined.

(** The sample page has no session state, so both conditions on the initial
    page hold of it. *)
Example page_is_fresh :
  all_feedback (λ fb0, ¬ discarded_and_marked fb0) page
  ∧ all_feedback commit_flag_sound page.
Proof.
  split; repeat constructor; simpl.
  - intros [Hv _]. discriminate Hv.
  - intros [c Hc]. discriminate Hc.
Qed.

Example page_after_discard_state :
  (lookup_row 0 0 page_after_discard ≫= row_feedback)
  = Some discarded_feedback.
Proof. by vm_compute. Qed.

(** ** The submitter *)

Lemma mapM_Normal {A B : Type} (f : A → completion B) l k :
  Forall2 (λ x y, f x = Normal y) l k → mapM f l = Normal k.
Proof.
  induction 1 as [|x y l k Hxy _ IH]; [done|].
  change (mapM f (x :: l))
    with (f x ≫= λ y, mapM f l ≫= λ k, mret (y :: k)).
  by rewrite Hxy, IH.
Qed.

Lemma collectTransactions_all d elementIds :
  Forall (λ eid, Forall (λ r, is_Some (row_feedback r)) (select_rows eid d))
    elementIds →
  ∃ lists,
    Forall2 (λ eid recs, StaticJs.collectTransactions d eid = Normal recs)
      elementIds lists.
Proof.
  induction 1 as [|eid ids Hrows _ [lists IH]]; [by exists []|].
  destruct (jquery_map_rows_total (section_of d eid) _ Hrows) as [recs Hrecs].
  exists (recs :: lists). by constructor.
Qed.

Lemma forEach_log_each commit entries log :
  forEach (λ resp, log_each resp commit) entries log
  = (Normal (), log ++ ((λ resp, CallEach resp commit) <$> entries)).
Proof.
  revert log. induction entries as [|resp entries IH]; intros log; simpl.
  - by rewrite app_nil_r.
  - by rewrite IH, <- app_assoc.
Qed.

Lemma forEach_normal {S A : Type} (f : A → S → completion unit * S) l s :
  (∀ x s', fst (f x s') = Normal ()) →
  forEach f l s = (Normal (), foldl (λ s' x, snd (f x s')) s l).
Proof.
  intros Hf. revert s. induction l as [|x l IH]; intros s; simpl; [done|].
  specialize (Hf x s). destruct (f x s) as [[[]|e] s1]; simpl in *; [|done].
  apply IH.
Qed.

(** C5.  When the rows below the containers named by [elementIds] have
    their feedback elements, [submitTransactions] issues one [post] request
    whose body holds the [commit] flag and the concatenation, in the order of
    [elementIds], of what [collectTransactions] returns for each id, and
    registers a handler that calls the per-item callback once for every entry
    of [pipeline_responses], in order, with that entry and the [commit] flag
    given to [submitTransactions], and then the extra callback, if there is
    one, with the whole response.  The calls are stated twice: for any
    per-item callback that returns normally, as the state it threads through
    the entries, and for callbacks that record their arguments, as the log
    they leave. *)
Theorem submitTransactions_posts_and_dispatches d endpointUrl elementIds commit :
  Forall (λ eid, Forall (λ r, is_Some (row_feedback r)) (select_rows eid d))
    elementIds →
  ∃ lists,
    Forall2 (λ eid recs, StaticJs.collectTransactions d eid = Normal recs)
      elementIds lists
    ∧ (∀ (S : Type) responseCallback extraCallback,
         StaticJs.submitTransactions (S := S) responseCallback extraCallback
           endpointUrl elementIds commit d
         = Normal (mkRequest endpointUrl "post" "json"
                     (mkPostData commit (concat lists)),
                   StaticJs.done responseCallback extraCallback commit))
    ∧ (∀ (S : Type) (responseCallback : ResponseEntry → bool → S → _)
         extraCallback response s,
         (∀ resp s', fst (responseCallback resp commit s') = Normal ()) →
         StaticJs.done responseCallback extraCallback commit response s
         = from_option (λ extra, extra response) (λ s', (Normal (), s'))
             extraCallback
             (foldl (λ s' resp, snd (responseCallback resp commit s')) s
                (pipeline_responses response)))
    ∧ (∀ response log,
         StaticJs.done log_each (Some log_extra) commit response log
         = (Normal (),
            log ++ ((λ resp, CallEach resp commit)
                      <$> pipeline_responses response)
                ++ [CallExtra response]))
    ∧ (∀ response log,
         StaticJs.done log_each None commit response log
         = (Normal (),
            log ++ ((λ resp, CallEach resp commit)
                      <$> pipeline_responses response))).
Proof.
  intros Hrows. destruct (collectTransactions_all d elementIds Hrows)
    as [lists Hlists].
  exists lists. split; [done|]. split; [|split; [|split]].
  - intros S responseCallback extraCallback.
    unfold StaticJs.submitTransactions.
    by rewrite (mapM_Normal _ _ _ Hlists).
  - intros S responseCallback extraCallback response s Hnormal.
    unfold StaticJs.done.
    rewrite (forEach_normal (λ resp, responseCallback resp commit))
      by done.
    by destruct extraCallback.
  - intros response log. unfold StaticJs.done.
    rewrite forEach_log_each. unfold log_extra. by rewrite <- app_assoc.
  - intros response log. unfold StaticJs.done.
    by rewrite forEach_log_each.
Qed.

Lemma submitTransactions_posts_and_dispatches_witness :
  ∃ lists,
    Forall2 (λ eid recs, StaticJs.collectTransactions two_rows eid = Normal recs)
      ["batch2"; "batch2"] lists
    ∧ (∀ (S : Type) responseCallback extraCallback,
         StaticJs.submitTransactions (S := S) responseCallback extraCallback
           "/pipeline" ["batch2"; "batch2"] false two_rows
         = Normal (mkRequest "/pipeline" "post" "json"
                     (mkPostData false (concat lists)),
                   StaticJs.done responseCallback extraCallback false))
    ∧ (∀ (S : Type) (responseCallback : ResponseEntry → bool → S → _)
         extraCallback response s,
         (∀ resp s', fst (responseCallback resp false s') = Normal ()) →
         StaticJs.done responseCallback extraCallback false response s
         = from_option (λ extra, extra response) (λ s', (Normal (), s'))
             extraCallback
             (foldl (λ s' resp, snd (responseCallback resp false s')) s
                (pipeline_responses response)))
    ∧ (∀ response log,
         StaticJs.done log_each (Some log_extra) false response log
         = (Normal (),
            log ++ ((λ resp, CallEach resp false)
                      <$> pipeline_responses response)
                ++ [CallExtra response]))
    ∧ (∀ response log,
         StaticJs.done log_each None false response log
         = (Normal (),
            log ++ ((λ resp, CallEach resp false)
                      <$> pipeline_responses response))).
Proof.
  apply (submitTransactions_posts_and_dispatches two_rows "/pipeline"
           ["batch2"; "batch2"] false).
  vm_compute. repeat constructor; by eexists.
Defined.

(** A per-item callback that throws ends the loop: with [processResponse]
    as the callback, an entry for an element that is gone keeps the entries
    after it from being painted. *)
Example done_stops_at_throw :
  StaticJs.done StaticJs.processResponse None false
    (mkResponse [stale_entry; clean_entry]) page
  = (Throw TypeError, page).
Proof. reflexivity. Qed.

(** X22.  The handler of the second copy hands the constant [true] to the
    per-item callback, once per entry and in order, whatever flag
    [submitTransactions] was given, and then calls the extra callback. *)
Lemma Part000_done_passes_true response log :
  Part000.done log_each (Some log_extra) response log
  = (Normal (),
     log ++ ((λ resp, CallEach resp true) <$> pipeline_responses response)
         ++ [CallExtra response]).
Proof.
  unfold Part000.done. rewrite forEach_log_each.
  unfold log_extra. by rewrite <- app_assoc.
Qed.

(** * Further properties of the code *)

(** ** The collector: errors and edge cases *)

Lemma jquery_map_rows_throw section rows :
  StaticJs.jquery_map (StaticJs.row_callback section) rows = Throw TypeError
  ↔ Exists (λ r, row_feedback r = None) rows.
Proof.
  induction rows as [|r rows IH].
  - split; [done|]. by intros ?%Exists_nil.
  - rewrite jquery_map_cons, row_callback_cases, Exists_cons.
    destruct (row_feedback r) as [fb|] eqn:Hfb.
    + destruct (StaticJs.jquery_map _ rows) as [rs|[]] eqn:Hrs.
      * split; [done|]. intros [?|Hex]; [done|]. by apply IH in Hex.
      * split; [|done]. intros _. right. by apply IH.
    + split; [by left|done].
Qed.

(** X1.  [collectTransactions] throws a [TypeError] exactly when one of the
    rows below the container has no feedback element; the rows before it do
    not save the call. *)
Theorem collectTransactions_throws_iff d elementId :
  StaticJs.collectTransactions d elementId = Throw TypeError
  ↔ Exists (λ r, row_feedback r = None) (select_rows elementId d).
Proof. apply jquery_map_rows_throw. Qed.




Lemma mapM_collect_throws d elementIds :
  mapM (StaticJs.collectTransactions d) elementIds = Throw TypeError
  ↔ Exists (λ eid, StaticJs.collectTransactions d eid = Throw TypeError)
      elementIds.
Proof.
  induction elementIds as [|eid ids IH].
  - split; [done|]. by intros ?%Exists_nil.
  - change (mapM (StaticJs.collectTransactions d) (eid :: ids))
      with (StaticJs.collectTransactions d eid
              ≫= λ y, mapM (StaticJs.collectTransactions d) ids
              ≫= λ k, mret (y :: k)).
    rewrite Exists_cons.
    destruct (StaticJs.collectTransactions d eid) as [recs|[]]; simpl.
    + destruct (mapM _ ids) as [k|[]]; simpl.
      * split; [done|]. intros [?|Hex]; [done|]. by apply IH in Hex.
      * split; [|done]. intros _. right. by apply IH.
    + split; [by left|done].
Qed.

(** X3.  [submitTransactions] throws, and hands no request to [$.ajax],
    exactly when a row below one of the listed containers has no feedback
    element. *)
Theorem submitTransactions_throws_iff {S : Type}
    (responseCallback : ResponseEntry → bool → S → completion unit * S)
    extraCallback endpointUrl elementIds commit d :
  StaticJs.submitTransactions responseCallback extraCallback endpointUrl
    elementIds commit d = Throw TypeError
  ↔ Exists (λ eid, Exists (λ r, row_feedback r = None) (select_rows eid d))
      elementIds.
Proof.
  unfold StaticJs.submitTransactions. split.
  - intros Hthrow.
    assert (mapM (StaticJs.collectTransactions d) elementIds
            = Throw TypeError) as Hlists
      by (by destruct (mapM _ elementIds) as [k|[]]).
    apply mapM_collect_throws in Hlists.
    eapply Exists_impl; [exact Hlists|].
    intros eid Heid. by apply collectTransactions_throws_iff.
  - intros Hrows.
    assert (mapM (StaticJs.collectTransactions d) elementIds
            = Throw TypeError) as ->; [|done].
    apply mapM_collect_throws. eapply Exists_impl; [exact Hrows|].
    intros eid Heid. by apply collectTransactions_throws_iff.
Qed.

Example submitTransactions_broken_rows :
  StaticJs.submitTransactions log_each None "/pipeline" ["batch3"] true
    broken_rows = Throw TypeError.
Proof. reflexivity. Qed.

(** ** The collector: what a record holds *)

Lemma last_copied_cons k a attrs :
  last_copied k (a :: attrs) =
    match last_copied k attrs with
    | Some v => Some v
    | None =>
        if decide (is_copied a = true
                   ∧ StaticJs.parameterName (attr_name a) = k)
        then Some (attr_value a) else None
    end.
Proof.
  unfold last_copied. case_decide as Ha.
  - rewrite filter_cons_True by done. rewrite last_cons.
    by destruct (last (filter _ attrs)).
  - rewrite filter_cons_False by done. by destruct (last (filter _ attrs)).
Qed.

Lemma last_copied_Some k attrs v :
  last_copied k attrs = Some v →
  ∃ a, a ∈ attrs ∧ is_copied a = true
       ∧ StaticJs.parameterName (attr_name a) = k ∧ attr_value a = v.
Proof.
  unfold last_copied. intros Hlast.
  destruct (last (filter _ attrs)) as [a|] eqn:Ha; [|done].
  injection Hlast as <-.
  apply last_Some_elem_of, list_elem_of_filter in Ha as [[Hc Hk] Hin].
  by exists a.
Qed.

(** What the loop over the attributes leaves under a key: the value of the
    last copied attribute that maps to it, else what was there before. *)
Lemma copy_attributes_lookup m attrs k :
  k ≠ "__proto__" →
  foldl StaticJs.copy_attribute m attrs !! k =
    match last_copied k attrs with
    | Some v => Some (JString v)
    | None => m !! k
    end.
Proof.
  intros Hk. revert m. induction attrs as [|a attrs IH]; intros m; [done|].
  simpl. rewrite IH, last_copied_cons.
  destruct (last_copied k attrs) as [v|]; [done|].
  rewrite copy_attribute_lookup.
  destruct (decide (is_copied a = true
                    ∧ StaticJs.parameterName (attr_name a) = k))
    as [[Hc Hn]|Hna].
  - by rewrite decide_True.
  - rewrite decide_False; [done|]. intros (? & ? & _). by apply Hna.
Qed.

(** The key [__proto__] is never written. *)
Lemma copy_attributes_proto m attrs :
  foldl StaticJs.copy_attribute m attrs !! "__proto__" = m !! "__proto__".
Proof.
  revert m. induction attrs as [|a attrs IH]; intros m; [done|].
  simpl. rewrite IH, copy_attribute_lookup.
  rewrite decide_False; [done|]. by intros (_ & _ & ?).
Qed.

(** X4.  The [transaction_id] of a record is the id of the row, unless the
    row has a specified [data-] attribute whose key is [transaction_id] (such
    as [data-transaction-id]): then it is the value of the last such
    attribute. *)
Theorem record_transaction_id section r fb :
  StaticJs.row_data section r fb !! "transaction_id"
  = Some (JString (default (row_id r)
                     (last_copied "transaction_id" (row_attributes r)))).
Proof.
  unfold StaticJs.row_data.
  assert (∀ m : gmap string jsvalue,
            (if decide (dataset fb !! "verdict" ≠ Some "commit")
             then <["do_not_skip" := JBool true]> m else m) !! "transaction_id"
            = m !! "transaction_id") as ->.
  { intros m. case_decide; [by rewrite lookup_insert_ne|done]. }
  rewrite copy_attributes_lookup by done.
  destruct (last_copied _ _) as [v|]; [done|]. simpl.
  destruct section; [rewrite lookup_insert_ne by done|];
    by rewrite lookup_singleton_eq.
Qed.

(** X5.  The [pipeline_section_id] of a record is the value of the last
    specified [data-] attribute of the row whose key is
    [pipeline_section_id], if there is one, else the
    [data-pipeline-section-id] of the container; it is absent when there is
    neither. *)
Theorem record_pipeline_section_id section r fb :
  StaticJs.row_data section r fb !! "pipeline_section_id"
  = JString <$> (match last_copied "pipeline_section_id" (row_attributes r)
                 with Some v => Some v | None => section end).
Proof.
  unfold StaticJs.row_data.
  assert (∀ m : gmap string jsvalue,
            (if decide (dataset fb !! "verdict" ≠ Some "commit")
             then <["do_not_skip" := JBool true]> m else m)
              !! "pipeline_section_id"
            = m !! "pipeline_section_id") as ->.
  { intros m. case_decide; [by rewrite lookup_insert_ne|done]. }
  rewrite copy_attributes_lookup by done.
  destruct (last_copied _ _) as [v|]; [done|].
  destruct section; simpl;
    [by rewrite lookup_insert_eq|by rewrite lookup_singleton_ne].
Qed.

(** X6.  A record has no other keys than [transaction_id],
    [pipeline_section_id] (when the container names a section),
    [do_not_skip] (when the verdict is not [commit]) and the keys of the
    specified [data-] attributes of the row: the [id], the [class] and the
    other attributes of the row never reach the server. *)
Theorem record_keys section r fb k :
  is_Some (StaticJs.row_data section r fb !! k) →
  k = "transaction_id"
  ∨ (k = "pipeline_section_id" ∧ is_Some section)
  ∨ (k = "do_not_skip" ∧ dataset fb !! "verdict" ≠ Some "commit")
  ∨ ∃ a, a ∈ row_attributes r
         ∧ startsWith (attr_name a) "data-" = true
         ∧ attr_specified a = true
         ∧ StaticJs.parameterName (attr_name a) = k.
Proof.
  unfold StaticJs.row_data. intros Hk.
  destruct (decide (k = "do_not_skip"
                    ∧ dataset fb !! "verdict" ≠ Some "commit"))
    as [?|Hskip]; [by auto|].
  assert (is_Some (foldl StaticJs.copy_attribute
            (match section with
             | Some p =>
                 <["pipeline_section_id" := JString p]>
                   ({[ "transaction_id" := JString (row_id r) ]}
                      : gmap string jsvalue)
             | None => {[ "transaction_id" := JString (row_id r) ]}
             end) (row_attributes r) !! k)) as Hcopied.
  { revert Hk. case_decide as Hv; [|done].
    rewrite lookup_insert_ne; [done|]. intros <-. by apply Hskip. }
  clear Hk.
  destruct (decide (k = "__proto__")) as [->|Hproto].
  { exfalso. revert Hcopied. rewrite copy_attributes_proto.
    destruct section; [rewrite lookup_insert_ne by done|];
      rewrite lookup_singleton_ne by done; by intros [? ?]. }
  rewrite copy_attributes_lookup in Hcopied by done.
  destruct (last_copied k (row_attributes r)) as [v|] eqn:Hlast.
  - apply last_copied_Some in Hlast as (a & Hin & Hc & Hkey & _).
    apply andb_true_iff in Hc as [Hp Hs]. do 3 right. by exists a.
  - destruct section as [p|].
    + destruct (decide (k = "pipeline_section_id")) as [->|Hne];
        [by right; left; eauto|].
      rewrite lookup_insert_ne in Hcopied by done.
      destruct (decide (k = "transaction_id")) as [->|Hne']; [by left|].
      rewrite lookup_singleton_ne in Hcopied by done. by destruct Hcopied.
    + destruct (decide (k = "transaction_id")) as [->|Hne']; [by left|].
      rewrite lookup_singleton_ne in Hcopied by done. by destruct Hcopied.
Qed.

Lemma record_keys_witness :
  "transaction_id" = "transaction_id"
  ∨ ("transaction_id" = "pipeline_section_id" ∧ is_Some (@None string))
  ∨ ("transaction_id" = "do_not_skip"
     ∧ dataset (mkFeedback {[ "verdict" := "commit"; "commit" := "true" ]}
                  EmptyString) !! "verdict" ≠ Some "commit")
  ∨ ∃ a, a ∈ row_attributes relabelled_row
         ∧ startsWith (attr_name a) "data-" = true
         ∧ attr_specified a = true
         ∧ StaticJs.parameterName (attr_name a) = "transaction_id".
Proof.
  apply (record_keys None relabelled_row
           (mkFeedback {[ "verdict" := "commit"; "commit" := "true" ]}
              EmptyString) "transaction_id").
  vm_compute. by eexists.
Defined.

Example relabelled_row_record :
  StaticJs.row_callback None relabelled_row
  = Normal (Some {[ "transaction_id" := JString "tx-7" ]}).
Proof. by vm_compute. Qed.

(** ** Marking and unmarking *)

Lemma markForCommit_cases fb commit :
  StaticJs.markForCommit fb commit =
    if decide (dataset fb !! "verdict" = None
               ∨ dataset fb !! "verdict" = Some "discard")
    then (fb, false)
    else (set_dataset (if commit then <["commit" := "true"]> (dataset fb)
                       else delete "commit" (dataset fb)) fb, commit).
Proof.
  unfold StaticJs.markForCommit. case_decide; [done|]. by destruct commit.
Qed.

(** X7.  [markForCommit] returns the resulting status of the [commit] flag,
    as its comment says, on every feedback element whose flag is only set
    next to a verdict other than [discard]. *)
Theorem markForCommit_returns_status fb commit :
  commit_flag_sound fb →
  snd (StaticJs.markForCommit fb commit) = true
  ↔ is_Some (dataset (fst (StaticJs.markForCommit fb commit)) !! "commit").
Proof.
  intros Hsound. rewrite markForCommit_cases. case_decide as Hv; simpl.
  - split; [done|]. intros Hc. destruct (Hsound Hc) as (v & Hv' & Hne).
    destruct Hv; congruence.
  - destruct commit; simpl.
    + rewrite lookup_insert_eq. by split.
    + rewrite lookup_delete_eq. split; [done|]. by intros [? ?].
Qed.

Lemma markForCommit_returns_status_witness :
  snd (StaticJs.markForCommit warned_feedback true) = true
  ↔ is_Some (dataset (fst (StaticJs.markForCommit warned_feedback true))
               !! "commit").
Proof.
  apply (markForCommit_returns_status warned_feedback true).
  intros [c Hc]. vm_compute in Hc. discriminate Hc.
Defined.

(** On a feedback element that is marked without a verdict the returned
    value is not the status of the flag. *)
Example markForCommit_status_unsound :
  snd (StaticJs.markForCommit (mkFeedback {[ "commit" := "true" ]} EmptyString)
         false) = false
  ∧ dataset (fst (StaticJs.markForCommit
                    (mkFeedback {[ "commit" := "true" ]} EmptyString) false))
      !! "commit" = Some "true".
Proof. split; reflexivity. Qed.

(** X8.  [markForCommit] touches nothing but the [commit] flag: the verdict,
    every other entry of the dataset and the markup of the feedback element
    are as before. *)
Theorem markForCommit_only_commit_flag fb commit k :
  k ≠ "commit" →
  dataset (fst (StaticJs.markForCommit fb commit)) !! k = dataset fb !! k
  ∧ innerHTML (fst (StaticJs.markForCommit fb commit)) = innerHTML fb.
Proof.
  intros Hk. rewrite markForCommit_cases. case_decide; [done|]. simpl.
  split; [|done].
  destruct commit; [by rewrite lookup_insert_ne|by rewrite lookup_delete_ne].
Qed.

Lemma markForCommit_only_commit_flag_witness :
  dataset (fst (StaticJs.markForCommit warned_feedback true)) !! "verdict"
  = dataset warned_feedback !! "verdict"
  ∧ innerHTML (fst (StaticJs.markForCommit warned_feedback true))
    = innerHTML warned_feedback.
Proof.
  apply (markForCommit_only_commit_flag warned_feedback true "verdict").
  discriminate.
Defined.

(** X9.  Of two calls of [markForCommit] on a feedback element the second
    one decides: marking and unmarking in any order leaves the element as
    the last call alone would, and returns what that call alone returns. *)
Theorem markForCommit_last_call_wins fb commit1 commit2 :
  StaticJs.markForCommit (fst (StaticJs.markForCommit fb commit1)) commit2
  = StaticJs.markForCommit fb commit2.
Proof.
  rewrite !markForCommit_cases.
  destruct (decide (dataset fb !! "verdict" = None
                    ∨ dataset fb !! "verdict" = Some "discard")) as [Hv|Hv];
    simpl.
  - by rewrite decide_True.
  - assert (∀ ds : gmap string string,
              ds !! "verdict" = dataset fb !! "verdict" →
              ¬ (ds !! "verdict" = None ∨ ds !! "verdict" = Some "discard"))
      as Hkeep by (by intros ds ->).
    destruct commit1; simpl.
    + rewrite decide_False
        by (apply Hkeep; by rewrite lookup_insert_ne).
      destruct commit2; simpl; f_equal; unfold set_dataset; simpl; f_equal.
      * apply insert_insert_eq.
      * apply delete_insert_eq.
    + rewrite decide_False
        by (apply Hkeep; by rewrite lookup_delete_ne).
      destruct commit2; simpl; f_equal; unfold set_dataset; simpl; f_equal.
      * apply insert_delete_eq.
      * apply delete_delete_eq.
Qed.

(** ** The renderer: outcomes *)

Lemma not_removed_with_intent resp :
  StaticJs.removes resp true = false →
  committed resp ≠ Some true ∧ (verdict resp ≤ 0)%Z.
Proof.
  unfold StaticJs.removes. simpl. intros [Hc Hv]%orb_false_iff. split.
  - intros Hc'. by rewrite Hc' in Hc.
  - rewrite Z.gtb_ltb in Hv. by apply Z.ltb_ge in Hv.
Qed.

(** X10.  Under commit intent [processResponse] never paints a warning or
    a rejection: the selected element is removed, or its feedback element
    ends as [commit] with the flag set (verdict 0), or its session state is
    left as it was (a negative, unmapped verdict). *)
Theorem commit_round_outcome d resp n i j fb :
  select_id (transaction_id resp) d = Some n →
  find_feedback d n = Some (i, j, fb) →
  StaticJs.processResponse resp true d = (Normal (), remove_node n d)
  ∨ ∃ fb',
      StaticJs.processResponse resp true d
        = (Normal (), write_feedback i j fb' d)
      ∧ ((dataset fb' !! "verdict" = Some "commit"
          ∧ dataset fb' !! "commit" = Some "true")
         ∨ dataset fb' = dataset fb).
Proof.
  intros Hsel Hfb. rewrite StaticJs_processResponse_cases, Hsel.
  destruct (StaticJs.removes resp true) eqn:Hrem; [by left|].
  right. simpl. rewrite Hfb. exists (StaticJs_painted resp fb).
  split; [done|].
  apply not_removed_with_intent in Hrem as [_ Hv].
  destruct (decide (verdict resp = 0%Z)) as [H0|H0].
  - left. by eapply (apply_verdict_lookup (verdict resp) fb).
  - right. unfold StaticJs_painted. simpl. apply apply_verdict_other; lia.
Qed.

Lemma commit_round_outcome_witness :
  StaticJs.processResponse clean_entry true page
    = (Normal (), remove_node (RowAt 0 0) page)
  ∨ ∃ fb',
      StaticJs.processResponse clean_entry true page
        = (Normal (), write_feedback 0 0 fb' page)
      ∧ ((dataset fb' !! "verdict" = Some "commit"
          ∧ dataset fb' !! "commit" = Some "true")
         ∨ dataset fb' = dataset (mkFeedback ∅ EmptyString)).
Proof.
  apply (commit_round_outcome page clean_entry (RowAt 0 0) 0 0
           (mkFeedback ∅ EmptyString)); reflexivity.
Defined.

Lemma html_list_not_empty class items : html_list class items ≠ EmptyString.
Proof. done. Qed.

Lemma feedback_markup_empty errors warnings :
  StaticJs.feedback_markup errors warnings = EmptyString
  ↔ errors = [] ∧ warnings = [].
Proof.
  unfold StaticJs.feedback_markup.
  destruct errors as [|e errors], warnings as [|w warnings];
    split; try done; by intros [? ?].
Qed.

(** X11.  A row that is kept gets fresh markup: the feedback element is
    emptied exactly when the entry has neither errors nor warnings, whatever
    it showed before. *)
Theorem processResponse_markup d resp commitIntention n i j fb :
  select_id (transaction_id resp) d = Some n →
  find_feedback d n = Some (i, j, fb) →
  StaticJs.removes resp commitIntention = false →
  ∃ fb',
    StaticJs.processResponse resp commitIntention d
      = (Normal (), write_feedback i j fb' d)
    ∧ (innerHTML fb' = EmptyString
       ↔ errors resp = [] ∧ warnings resp = []).
Proof.
  intros Hsel Hfb Hkeep.
  rewrite StaticJs_processResponse_cases, Hkeep, Hsel. simpl. rewrite Hfb.
  exists (StaticJs_painted resp fb). split; [done|].
  apply feedback_markup_empty.
Qed.

Lemma processResponse_markup_witness :
  ∃ fb',
    StaticJs.processResponse warned_entry false page
      = (Normal (), write_feedback 0 0 fb' page)
    ∧ (innerHTML fb' = EmptyString
       ↔ errors warned_entry = [] ∧ warnings warned_entry = []).
Proof.
  apply (processResponse_markup page warned_entry false (RowAt 0 0) 0 0
           (mkFeedback ∅ EmptyString)); reflexivity.
Defined.

(** ** The renderer: the two copies *)

(** X12.  Whatever [static/js] removes, the second copy removes too, with
    the same result; the two tests differ exactly on an entry that is
    [committed] and handed over without commit intent, which only the second
    copy removes. *)
Theorem removal_of_both_copies d resp commitIntention :
  (StaticJs.removes resp commitIntention = true →
   Part000.processResponse resp commitIntention d
   = StaticJs.processResponse resp commitIntention d)
  ∧ (StaticJs.removes resp commitIntention
     ≠ Part000.removes resp commitIntention
     ↔ committed resp = Some true ∧ commitIntention = false)
  ∧ (committed resp = Some true → commitIntention = false →
     StaticJs.removes resp commitIntention = false
     ∧ Part000.removes resp commitIntention = true).
Proof.
  split; [|split].
  - intros Hrem.
    rewrite StaticJs_processResponse_cases, Part000_processResponse_cases, Hrem.
    assert (Part000.removes resp commitIntention = true) as ->; [|done].
    apply Part000_removes_iff. apply StaticJs_removes_iff in Hrem. tauto.
  - unfold StaticJs.removes, Part000.removes.
    destruct (committed resp) as [[]|], commitIntention,
      (verdict resp >? 0)%Z; simpl; split; try done; try (by intros [? ?]);
      try (by intros [[=] ?]); by intros [? [=]].
  - intros Hc ->. unfold StaticJs.removes, Part000.removes. by rewrite Hc.
Qed.

(** X13.  In the second copy the handler treats every response as a commit
    round: run with [processResponse] on a single entry whose verdict is
    positive, it removes the selected element, whatever flag the request
    carried. *)
Theorem Part000_done_removes_warned d resp n :
  select_id (transaction_id resp) d = Some n →
  (0 < verdict resp)%Z →
  Part000.done Part000.processResponse None (mkResponse [resp]) d
  = (Normal (), remove_node n d).
Proof.
  intros Hsel Hv. unfold Part000.done. simpl.
  assert (Part000.processResponse resp true d = (Normal (), remove_node n d))
    as ->; [|done].
  apply Part000_removal_iff; [done|]. apply Part000_removes_iff. auto.
Qed.

Lemma Part000_done_removes_warned_witness :
  Part000.done Part000.processResponse None (mkResponse [warned_entry]) page
  = (Normal (), remove_node (RowAt 0 0) page).
Proof.
  apply (Part000_done_removes_warned page warned_entry (RowAt 0 0)).
  - reflexivity.
  - reflexivity.
Defined.

(** The same response after a request without commit intent, in
    [static/js]: the row is kept and painted. *)
Example StaticJs_done_keeps_warned :
  StaticJs.done StaticJs.processResponse None false
    (mkResponse [warned_entry]) page
  = (Normal (),
     [ mkContainer "batch1" []
         [ mkRow "t1" [mkAttr "data-amount" "50" true]
             (Some (mkFeedback {[ "verdict" := "suggest-skip" ]}
                      (html_list "transaction-warnings"
                         ["Unbalanced amount"]))) ] ]).
Proof. by vm_compute. Qed.

(** ** From one round to the next *)

(** X14.  What the collector does with a row in the round after
    [processResponse] painted it: after verdict 0 the row is submitted
    without [do_not_skip = true]; after verdict 1 or 3 it is left out; after
    verdict 1 and [markForCommit(feedback, true)] it is submitted with
    [do_not_skip = true]; after verdict 3 no call of [markForCommit] brings
    it back. *)
Theorem painted_row_next_round section r fb resp :
  (verdict resp = 0%Z →
   ∃ rec,
     StaticJs.row_callback section (set_feedback (StaticJs_painted resp fb) r)
     = Normal (Some rec)
     ∧ rec !! "do_not_skip" ≠ Some (JBool true))
  ∧ (verdict resp = 1%Z ∨ verdict resp = 3%Z →
     StaticJs.row_callback section (set_feedback (StaticJs_painted resp fb) r)
     = Normal None)
  ∧ (verdict resp = 1%Z →
     ∃ rec,
       StaticJs.row_callback section
         (set_feedback
            (fst (StaticJs.markForCommit (StaticJs_painted resp fb) true)) r)
       = Normal (Some rec)
       ∧ rec !! "do_not_skip" = Some (JBool true))
  ∧ (verdict resp = 3%Z →
     ∀ commit,
       StaticJs.row_callback section
         (set_feedback
            (fst (StaticJs.markForCommit (StaticJs_painted resp fb) commit)) r)
       = Normal None).
Proof.
  destruct (apply_verdict_lookup (verdict resp) fb (StaticJs_painted resp fb)
              eq_refl) as (Hcommit & Hskip & Hdiscard).
  revert Hcommit Hskip Hdiscard.
  generalize (StaticJs_painted resp fb). intros fb' Hcommit Hskip Hdiscard.
  split; [|split; [|split]].
  - intros [Hv Hc]%Hcommit. rewrite row_callback_cases.
    unfold is_marked. simpl. rewrite Hc. simpl. eexists. split; [done|].
    rewrite row_data_do_not_skip. by intros [].
  - intros Hv. rewrite row_callback_cases. unfold is_marked. simpl.
    by destruct Hv as [[_ ->]%Hskip|[_ ->]%Hdiscard].
  - intros [Hv Hc]%Hskip. rewrite row_callback_cases, markForCommit_cases.
    rewrite decide_False by (rewrite Hv; by intros [|]).
    unfold is_marked. simpl. rewrite lookup_insert_eq. simpl.
    eexists. split; [done|]. rewrite row_data_do_not_skip. simpl.
    rewrite lookup_insert_ne by done. by rewrite Hv.
  - intros [Hv Hc]%Hdiscard commit.
    rewrite row_callback_cases, markForCommit_cases.
    rewrite decide_True by auto. unfold is_marked. simpl. by rewrite Hc.
Qed.

(** ** The renderer: what it leaves alone *)






(** ** The renderer: repeated responses *)

Lemma list_find_alter_index {A : Type} (P : A → Prop)
    `{∀ x, Decision (P x)} (f : A → A) (j : nat) (l : list A) :
  (∀ x, P (f x) ↔ P x) →
  fst <$> list_find P (alter f j l) = fst <$> list_find P l.
Proof.
  intros Hf. revert j. induction l as [|x l IH]; intros [|j]; simpl; [done..| |].
  - destruct (decide (P x)) as [Hx|Hx].
    + by rewrite decide_True by (by apply Hf).
    + by rewrite decide_False by (by rewrite Hf).
  - change (list_alter ?g ?k ?l) with (alter g k l).
    destruct (decide (P x)); [done|].
    specialize (IH j).
    destruct (list_find P (alter f j l)) as [[]|],
      (list_find P l) as [[]|]; simpl in *; congruence.
Qed.

Lemma select_id_write_feedback eid i j fb d :
  select_id eid (write_feedback i j fb d) = select_id eid d.
Proof.
  unfold write_feedback. revert i.
  induction d as [|c d IH]; intros [|i]; simpl; [done..| |].
  - case_decide; [done|].
    pose proof (list_find_alter_index (λ r, row_id r = eid)
                  (set_feedback fb) j (container_rows c)
                  (λ r, reflexivity _)) as Hfind.
    destruct (list_find _ (alter _ j (container_rows c))) as [[]|],
      (list_find _ (container_rows c)) as [[]|]; simpl in *; congruence.
  - change (list_alter ?g ?k ?l) with (alter g k l).
    case_decide; [done|].
    destruct (list_find _ (container_rows c)) as [[]|]; [done|].
    by rewrite IH.
Qed.

Lemma list_find_painted fb (j : nat) (rows : list Row) r :
  list_find (λ r, is_Some (row_feedback r)) rows = Some (j, r) →
  list_find (λ r, is_Some (row_feedback r)) (alter (set_feedback fb) j rows)
  = Some (j, set_feedback fb r).
Proof.
  revert j. induction rows as [|r0 rows IH]; intros j; simpl; [done|].
  destruct (decide (is_Some (row_feedback r0))) as [H0|H0].
  - intros [= <- <-]. cbn [alter list_alter list_find].
    rewrite decide_True; [done|]. by eexists.
  - destruct (list_find _ rows) as [[j' r']|] eqn:Hfind; simpl; [|done].
    intros [= <- <-]. simpl.
    change (list_alter ?g ?k ?l) with (alter g k l).
    rewrite decide_False by done. by rewrite (IH j' eq_refl).
Qed.

Lemma find_feedback_write_feedback d n i j fb fb' :
  find_feedback d n = Some (i, j, fb) →
  find_feedback (write_feedback i j fb' d) n = Some (i, j, fb').
Proof.
  destruct n as [k|k l]; simpl; unfold lookup_row, write_feedback.
  - destruct (d !! k) as [c|] eqn:Hk; simpl; [|done].
    destruct (list_find _ (container_rows c)) as [[l r]|] eqn:Hf; simpl;
      [|done].
    destruct (row_feedback r) as [fb0|]; simpl; [|done].
    intros [= <- <- <-]. rewrite list_lookup_alter_eq, Hk. simpl.
    by rewrite (list_find_painted fb' l _ r Hf).
  - destruct (d !! k) as [c|] eqn:Hk; simpl; [|done].
    destruct (container_rows c !! l) as [r|] eqn:Hl; simpl; [|done].
    destruct (row_feedback r) as [fb0|]; simpl; [|done].
    intros [= <- <- <-]. rewrite list_lookup_alter_eq, Hk. simpl.
    by rewrite list_lookup_alter_eq, Hl.
Qed.

Lemma set_feedback_twice fb fb' (j : nat) (rows : list Row) :
  alter (set_feedback fb') j (alter (set_feedback fb) j rows)
  = alter (set_feedback fb') j rows.
Proof.
  revert j. induction rows as [|r rows IH]; intros [|j]; simpl; [done..| |].
  - done.
  - f_equal. apply IH.
Qed.

Lemma write_feedback_twice i j fb fb' d :
  write_feedback i j fb' (write_feedback i j fb d) = write_feedback i j fb' d.
Proof.
  unfold write_feedback. revert i.
  induction d as [|c d IH]; intros [|i]; simpl; [done..| |].
  - f_equal. unfold set_rows. simpl. f_equal. apply set_feedback_twice.
  - f_equal. apply IH.
Qed.

Lemma apply_verdict_idempotent v (ds : gmap string string) :
  StaticJs.apply_verdict v (StaticJs.apply_verdict v ds)
  = StaticJs.apply_verdict v ds.
Proof.
  destruct (decide (v = 0%Z)) as [->|H0];
    [|destruct (decide (v = 1%Z)) as [->|H1];
      [|destruct (decide (v = 3%Z)) as [->|H3]]];
    [..|by rewrite !apply_verdict_other];
    simpl; apply map_eq; intros k;
    repeat (rewrite lookup_insert || rewrite lookup_delete);
    repeat case_decide; congruence.
Qed.

(** X16.  Receiving the same response twice is the same as receiving it
    once, for every response that does not remove: the second call selects
    the same feedback element and paints it the same way (or throws the same
    error on the unchanged document). *)
Theorem processResponse_idempotent_when_kept resp commitIntention d :
  StaticJs.removes resp commitIntention = false →
  StaticJs.processResponse resp commitIntention
    (snd (StaticJs.processResponse resp commitIntention d))
  = StaticJs.processResponse resp commitIntention d.
Proof.
  intros Hkeep. rewrite (StaticJs_processResponse_cases resp _ d), Hkeep.
  destruct (select_id (transaction_id resp) d) as [n|] eqn:Hsel; simpl.
  - destruct (find_feedback d n) as [[[i j] fb]|] eqn:Hfb; simpl.
    + rewrite StaticJs_processResponse_cases, Hkeep.
      rewrite select_id_write_feedback, Hsel. simpl.
      rewrite (find_feedback_write_feedback _ _ _ _ _ _ Hfb).
      rewrite write_feedback_twice. do 2 f_equal.
      unfold StaticJs_painted, set_innerHTML, set_dataset. simpl.
      by rewrite apply_verdict_idempotent.
    + rewrite StaticJs_processResponse_cases, Hkeep, Hsel. simpl.
      by rewrite Hfb.
  - by rewrite StaticJs_processResponse_cases, Hkeep, Hsel.
Qed.

Lemma processResponse_idempotent_when_kept_witness :
  StaticJs.processResponse warned_entry false
    (snd (StaticJs.processResponse warned_entry false page))
  = StaticJs.processResponse warned_entry false page.
Proof.
  apply (processResponse_idempotent_when_kept warned_entry false page).
  reflexivity.
Defined.

Lemma element_ids_cons c d :
  element_ids (c :: d)
  = container_id c :: (row_id <$> container_rows c) ++ element_ids d.
Proof. reflexivity. Qed.

Lemma remove_node_below c d n :
  remove_node (below n) (c :: d) = c :: remove_node n d.
Proof. by destruct n. Qed.

Lemma select_id_unknown eid d : eid ∉ element_ids d → select_id eid d = None.
Proof.
  induction d as [|c d IH]; [done|].
  rewrite element_ids_cons, not_elem_of_cons, not_elem_of_app.
  intros (Hc & Hrows & Hd). simpl.
  rewrite decide_False by done.
  destruct (list_find _ (container_rows c)) as [[j r]|] eqn:Hfind.
  - apply list_find_Some in Hfind as (Hj & Hr & _). exfalso. apply Hrows.
    rewrite <- Hr. apply list_elem_of_fmap_2. by eapply list_elem_of_lookup_2.
  - by rewrite IH.
Qed.

(** Removing the selected element takes exactly one occurrence of its id
    out of the ids of the document, and possibly other ids with it. *)
Lemma select_id_split eid d n :
  select_id eid d = Some n →
  ∃ l1 l2,
    element_ids d = l1 ++ eid :: l2
    ∧ element_ids (remove_node n d) `sublist_of` l1 ++ l2.
Proof.
  revert n. induction d as [|c d IH]; intros n Hsel; [done|].
  simpl in Hsel. case_decide as Hc.
  - injection Hsel as <-.
    exists [], ((row_id <$> container_rows c) ++ element_ids d).
    rewrite element_ids_cons, Hc. split; [done|].
    change (element_ids d
            `sublist_of` (row_id <$> container_rows c) ++ element_ids d).
    by apply sublist_inserts_l.
  - destruct (list_find _ (container_rows c)) as [[j r]|] eqn:Hfind.
    + injection Hsel as <-. apply list_find_Some in Hfind as (Hj & Hr & _).
      exists (container_id c :: (row_id <$> take j (container_rows c))),
        ((row_id <$> drop (S j) (container_rows c)) ++ element_ids d).
      split.
      * rewrite element_ids_cons.
        rewrite <- (take_drop_middle _ _ _ Hj) at 1.
        rewrite fmap_app, fmap_cons, Hr. simpl. by rewrite <- app_assoc.
      * cbn [remove_node alter list_alter]. rewrite element_ids_cons.
        cbn [set_rows container_rows container_id].
        rewrite delete_take_drop, fmap_app. simpl. by rewrite <- app_assoc.
    + destruct (select_id eid d) as [m|]; [|done]. injection Hsel as <-.
      destruct (IH m eq_refl) as (l1 & l2 & Hids & Hsub).
      exists (container_id c :: (row_id <$> container_rows c) ++ l1), l2.
      rewrite remove_node_below, !element_ids_cons, Hids. split.
      * simpl. by rewrite <- app_assoc.
      * simpl. rewrite <- app_assoc. apply sublist_skip.
        by apply sublist_app.
Qed.

(** X17.  On a document whose element ids are distinct, removal is final:
    once [processResponse] has removed the element of an entry, the id
    selects nothing, and every later response for that id leaves the
    document as it is, returning normally when it would remove and throwing
    a [TypeError] when it would paint. *)
Theorem removed_element_is_gone d resp commitIntention n :
  NoDup (element_ids d) →
  select_id (transaction_id resp) d = Some n →
  StaticJs.removes resp commitIntention = true →
  snd (StaticJs.processResponse resp commitIntention d) = remove_node n d
  ∧ select_id (transaction_id resp) (remove_node n d) = None
  ∧ ∀ resp' commitIntention',
      transaction_id resp' = transaction_id resp →
      StaticJs.processResponse resp' commitIntention' (remove_node n d)
      = (if StaticJs.removes resp' commitIntention'
         then Normal () else Throw TypeError,
         remove_node n d).
Proof.
  intros Hnodup Hsel Hrem.
  assert (select_id (transaction_id resp) (remove_node n d) = None) as Hgone.
  { destruct (select_id_split _ _ _ Hsel) as (l1 & l2 & Hids & Hsub).
    apply select_id_unknown. intros Hin.
    eapply elem_of_sublist in Hin; [|exact Hsub].
    rewrite Hids in Hnodup.
    apply NoDup_app in Hnodup as (_ & Hl1 & Hl2).
    apply NoDup_cons in Hl2 as [Hl2 _].
    apply elem_of_app in Hin as [Hin|Hin]; [|done].
    apply (Hl1 _ Hin). by left. }
  split; [|split; [done|]].
  - by rewrite StaticJs_processResponse_cases, Hrem, Hsel.
  - intros resp' commitIntention' Hid.
    rewrite StaticJs_processResponse_cases, Hid, Hgone. simpl.
    by destruct (StaticJs.removes resp' commitIntention').
Qed.

Lemma removed_element_is_gone_witness :
  snd (StaticJs.processResponse warned_entry true page)
  = remove_node (RowAt 0 0) page
  ∧ select_id (transaction_id warned_entry) (remove_node (RowAt 0 0) page)
    = None
  ∧ ∀ resp' commitIntention',
      transaction_id resp' = transaction_id warned_entry →
      StaticJs.processResponse resp' commitIntention'
        (remove_node (RowAt 0 0) page)
      = (if StaticJs.removes resp' commitIntention'
         then Normal () else Throw TypeError,
         remove_node (RowAt 0 0) page).
Proof.
  apply (removed_element_is_gone page warned_entry true (RowAt 0 0)).
  - by apply (bool_decide_unpack _).
  - reflexivity.
  - reflexivity.
Defined.

(** With a duplicated id the next element of that id takes its place. *)
Example duplicate_id_survives_removal :
  select_id "t1"
    (remove_node (RowAt 0 0)
       [ mkContainer "batch1" []
           [ mkRow "t1" [] None; mkRow "t1" [] None ] ])
  = Some (RowAt 0 0).
Proof. reflexivity. Qed.

(** ** The earlier versions *)

Lemma replace_hyphens_fixed s :
  replace_hyphens s = s ↔ count_hyphens s = 0.
Proof.
  induction s as [|c s IH]; simpl; [done|].
  unfold hyphen_to_underscore.
  destruct (Ascii.eqb c "-") eqn:Hc.
  - apply Ascii.eqb_eq in Hc as ->. split; [|done]. by intros [=].
  - rewrite <- IH. split; [by intros [=]|by intros ->].
Qed.

Lemma replace_first_hyphen_all s :
  FirstDraft.replace_first_hyphen s = replace_hyphens s
  ↔ (count_hyphens s ≤ 1)%nat.
Proof.
  induction s as [|c s IH]; simpl; [split; [lia|done]|].
  unfold hyphen_to_underscore.
  destruct (Ascii.eqb c "-") eqn:Hc.
  - pose proof (replace_hyphens_fixed s) as Hfixed. split.
    + intros [= Hs]. symmetry in Hs. apply Hfixed in Hs. lia.
    + intros Hcount. f_equal. symmetry. apply Hfixed. lia.
  - rewrite <- IH. split; [by intros [=]|by intros ->].
Qed.

(** X18.  The key expression of the first draft,
    [name.substring(5).replace('-', '_')], yields the key of the later
    versions exactly when the name has at most one hyphen after the [data-]
    prefix: a string pattern only replaces the first hyphen. *)
Theorem FirstDraft_parameterName_agrees name :
  FirstDraft.parameterName name = StaticJs.parameterName name
  ↔ (count_hyphens (substring_from 5 name) ≤ 1)%nat.
Proof. apply replace_first_hyphen_all. Qed.

Lemma SecondDraft_jquery_map section rows :
  StaticJs.jquery_map (SecondDraft.row_callback section) rows
  = Normal (SecondDraft.row_data section <$> rows).
Proof.
  induction rows as [|r rows IH]; [done|].
  by rewrite jquery_map_cons, IH.
Qed.

(** X19.  The second draft of the collector submits every row below the
    container, marked or not, in document order, and never throws: it does
    not look at the feedback elements. *)
Theorem SecondDraft_collects_every_row d elementId :
  SecondDraft.collectTransactions d elementId
  = Normal (SecondDraft.row_data (section_of d elementId)
              <$> select_rows elementId d).
Proof. apply SecondDraft_jquery_map. Qed.

Lemma row_data_of_clean_row section r fb :
  dataset fb !! "verdict" = Some "commit" →
  StaticJs.row_data section r fb = SecondDraft.row_data section r.
Proof.
  intros Hv. unfold StaticJs.row_data, SecondDraft.row_data.
  by rewrite decide_False by (by intros []).
Qed.

(** X20.  On a container all of whose rows are marked and carry the verdict
    [commit], the collector of [static/js] returns what the second draft
    returned: the feedback state only ever removes rows from the submission
    or adds [do_not_skip]. *)
Theorem collectors_agree_on_clean_rows d elementId :
  Forall (λ r, ∃ fb, row_feedback r = Some fb
                     ∧ truthy (dataset fb !! "commit") = true
                     ∧ dataset fb !! "verdict" = Some "commit")
    (select_rows elementId d) →
  StaticJs.collectTransactions d elementId
  = SecondDraft.collectTransactions d elementId.
Proof.
  intros Hrows. rewrite SecondDraft_collects_every_row.
  unfold StaticJs.collectTransactions. fold (section_of d elementId).
  induction Hrows as [|r rows (fb & Hfb & Hc & Hv) _ IH]; [done|].
  rewrite jquery_map_cons, row_callback_cases, Hfb, IH.
  unfold is_marked. rewrite Hfb. simpl. rewrite Hc.
  by rewrite (row_data_of_clean_row _ _ _ Hv).
Qed.

Lemma collectors_agree_on_clean_rows_witness :
  StaticJs.collectTransactions
    [ mkContainer "batch4" [] [relabelled_row; plain_row] ] "batch4"
  = SecondDraft.collectTransactions
      [ mkContainer "batch4" [] [relabelled_row; plain_row] ] "batch4".
Proof.
  apply (collectors_agree_on_clean_rows
           [ mkContainer "batch4" [] [relabelled_row; plain_row] ] "batch4").
  vm_compute. repeat constructor; eexists; repeat split.
Defined.

(** X21.  The collector of the second copy never yields a record: it
    returns the empty list when no row below the container carries
    [data-commit="true"] itself, and throws a [TypeError] on [this.find]
    as soon as one does. *)
Theorem Part000_collector_yields_nothing d elementId :
  (Part000.collectTransactions d elementId = Normal []
   ∨ Part000.collectTransactions d elementId = Throw TypeError)
  ∧ (Part000.collectTransactions d elementId = Throw TypeError
     ↔ Exists (λ r, get_attribute "data-commit" (row_attributes r)
                    = Some "true") (select_rows elementId d)).
Proof.
  rewrite Part000_collectTransactions_cases.
  destruct (filter _ (select_rows elementId d)) as [|r rows] eqn:Hfilter.
  - split; [by left|]. split; [done|]. intros Hex.
    apply Exists_exists in Hex as (r & Hr & Hc).
    assert (r ∈ filter (λ r, get_attribute "data-commit" (row_attributes r)
                             = Some "true") (select_rows elementId d))
      as Hin by (by apply list_elem_of_filter).
    rewrite Hfilter in Hin. by apply elem_of_nil in Hin.
  - split; [by right|]. split; [|done]. intros _.
    assert (r ∈ filter (λ r, get_attribute "data-commit" (row_attributes r)
                             = Some "true") (select_rows elementId d))
      as [Hc Hr]%list_elem_of_filter by (rewrite Hfilter; by left).
    apply Exists_exists. by exists r.
Qed.

Lemma forEach_app {S A : Type} (f : A → S → completion unit * S) l1 l2 s :
  forEach f (l1 ++ l2) s =
    match forEach f l1 s with
    | (Normal _, s') => forEach f l2 s'
    | (Throw e, s') => (Throw e, s')
    end.
Proof.
  revert s. induction l1 as [|x l1 IH]; intros s; simpl; [done|].
  destruct (f x s) as [[[]|e] s']; [apply IH|done].
Qed.

(** X23.  A per-item callback that throws ends the handler: the entries
    after it are not handed to the callback, the extra callback is not
    called, and the handler leaves the state in which the throwing call left
    it. *)
Theorem done_aborts_at_throw {S : Type}
    (responseCallback : ResponseEntry → bool → S → completion unit * S)
    extraCallback commit before resp after s s1 s2 e :
  forEach (λ r, responseCallback r commit) before s = (Normal (), s1) →
  responseCallback resp commit s1 = (Throw e, s2) →
  StaticJs.done responseCallback extraCallback commit
    (mkResponse (before ++ resp :: after)) s
  = (Throw e, s2).
Proof.
  intros Hbefore Hthrow. unfold StaticJs.done. simpl.
  rewrite forEach_app, Hbefore. simpl. by rewrite Hthrow.
Qed.

Lemma done_aborts_at_throw_witness :
  StaticJs.done StaticJs.processResponse (Some log_nothing) false
    (mkResponse ([warned_entry] ++ stale_entry :: [clean_entry])) page
  = (Throw TypeError, snd (StaticJs.processResponse warned_entry false page)).
Proof.
  apply (done_aborts_at_throw StaticJs.processResponse (Some log_nothing)
           false [warned_entry] stale_entry [clean_entry] page
           (snd (StaticJs.processResponse warned_entry false page))
           (snd (StaticJs.processResponse warned_entry false page))
           TypeError).
  - reflexivity.
  - reflexivity.
Defined.
